(** * Form validation of CaseFlowMobileRN

    A shallow embedding of the form-validation helper of the repository
    ([validateForm], [ValidationConfigBuilder], [useFormValidation]) and the
    properties its specification states about it.

    Modelling choices, all taken from the TypeScript source:
    - a report is [T | null | undefined] with [T extends Record<string, any>]:
      an object with properties of its own and inherited ones; reading a
      field that is neither gives [undefined];
    - numbers are the doubles that are integers, together with [NaN], the
      two infinities and the negative zero, so that [===], [<] and the text
      of a number keep their JavaScript meaning;
    - strings are sequences of code units below 256;
    - a custom validation is a function from the record to a boolean;
    - the builder keeps its configuration in one object of a store, and the
      arrays of rules it pushes to are objects of that store too.

    The environment configuration of the application ([EnvironmentConfig])
    is embedded as well: [Config] of react-native-config is a map from
    names to strings, [console.warn] adds to a list of warnings, and a
    [throw] is an outcome of its own. *)

From Stdlib Require Import ZArith Ascii String List Bool DecimalString.
From Stdlib Require Import DecimalPos DecimalZ.
From stdpp Require Import base option strings gmap fin_maps list.

Local Open Scope Z_scope.
Local Open Scope string_scope.

(** ** JavaScript values *)

Module Js.

(** A number: [NaN], an infinity, the negative zero, or an integer.
    [Int z] is the number that the integer [z] denotes, which is the
    double nearest to [z]; the operations below read it that way. *)
Inductive Num :=
| NaN
| PosInf
| NegInf
| NegZero
| Int (z : Z).

(** A value: the primitives and references to objects (compared by
    identity). *)
Inductive Val :=
| VUndefined
| VNull
| VBool (b : bool)
| VNum (n : Num)
| VStr (s : string)
| VObj (ref : positive).

(** The magnitude of the double nearest to [a >= 0], ties to even: exact
    below 2^53, 53 significant bits above; [None] when that is from 2^1024
    on, where the number is an infinity. *)
Definition nearest (a : Z) : option Z :=
  (if a <? 2 ^ 53 then Some a else
   let e := Z.log2 a - 52 in
   let q := Z.shiftr a e in
   let r := a - Z.shiftl q e in
   let half := Z.shiftl 1 (e - 1) in
   let q' := if r <? half then q
             else if half <? r then q + 1
             else if Z.even q then q else q + 1 in
   let v := Z.shiftl q' e in
   if v <? 2 ^ 1024 then Some v else None)%Z.

(** The number that the integer [z] denotes. *)
Definition toNumber (z : Z) : Num :=
  match z with
  | Z0 => Int 0
  | Zpos _ =>
      match nearest z with
      | Some v => Int v
      | None => PosInf
      end
  | Zneg _ =>
      match nearest (- z) with
      | Some v => Int (- v)
      | None => NegInf
      end
  end.

(** A number in its own form: [Int z] with [z] a double. *)
Definition double (n : Num) : Num :=
  match n with
  | Int z => toNumber z
  | _ => n
  end.

(** [a === b] on numbers: [NaN] differs from everything, itself included,
    and the two zeros are equal. *)
Definition num_eq (a b : Num) : bool :=
  match double a, double b with
  | PosInf, PosInf => true
  | NegInf, NegInf => true
  | NegZero, NegZero => true
  | NegZero, Int y => Z.eqb 0 y
  | Int x, NegZero => Z.eqb x 0
  | Int x, Int y => Z.eqb x y
  | _, _ => false
  end.

(** [a === b]. *)
Definition strict_eq (a b : Val) : bool :=
  match a, b with
  | VUndefined, VUndefined => true
  | VNull, VNull => true
  | VBool x, VBool y => Bool.eqb x y
  | VNum x, VNum y => num_eq x y
  | VStr x, VStr y => String.eqb x y
  | VObj x, VObj y => Pos.eqb x y
  | _, _ => false
  end.

(** [a !== b]. *)
Definition strict_neq (a b : Val) : bool := negb (strict_eq a b).

(** [n < m] for an array length [n] and a number [m]. *)
Definition length_lt (n : nat) (m : Num) : bool :=
  match double m with
  | NaN => false
  | PosInf => true
  | NegInf => false
  | NegZero => false
  | Int z => Z.ltb (Z.of_nat n) z
  end.

(** The decimal digits of an integer, with its sign. *)
Definition decimal (z : Z) : string := NilZero.string_of_int (Z.to_int z).

(** [s * p] is read as the number [x]. *)
Definition reads (x s p : Z) : bool :=
  match nearest (s * p) with
  | Some v => Z.eqb v x
  | None => false
  end.

(** The numerals of [k] digits [s], followed by [n - k] zeros, that are
    read as [x]: at most the two around [x]. *)
Definition candidatesAt (x k n : Z) : list (Z * Z) :=
  (if n <? k then [] else
   let p := 10 ^ (n - k) in
   let lo := x / p in
   List.map (fun s => (s, n))
     (List.filter
        (fun s => (10 ^ (k - 1) <=? s) && (s <? 10 ^ k) && reads x s p)
        [lo; lo + 1]))%Z.

(** How far the numeral [c] of [k] digits is from [x]. *)
Definition distance (x k : Z) (c : Z * Z) : Z :=
  Z.abs (fst c * 10 ^ (snd c - k) - x).

(** The numeral nearer to [x]; the even one of two that are as near. *)
Definition better (x k : Z) (c d : Z * Z) : Z * Z :=
  (if distance x k c <? distance x k d then c
   else if distance x k d <? distance x k c then d
   else if Z.even (fst c) then c else d)%Z.

(** The best numeral of [k] digits for [x], which has [D] digits. *)
Definition bestAt (x k D : Z) : option (Z * Z) :=
  match (candidatesAt x k D ++ candidatesAt x k (D + 1))%list with
  | [] => None
  | c :: cs => Some (fold_left (better x k) cs c)
  end.

(** The numeral with the fewest digits that is read as [x]: its digits [s],
    their number [k] and the length [n] of the integer part. *)
Fixpoint shortestFrom (x D k : Z) (fuel : nat) : option (Z * Z * Z) :=
  match fuel with
  | O => None
  | S fuel' =>
      match bestAt x k D with
      | Some (s, n) => Some (s, k, n)
      | None => shortestFrom x D (k + 1) fuel'
      end
  end.

Fixpoint zeros (n : nat) : string :=
  match n with
  | O => EmptyString
  | S n' => String "0" (zeros n')
  end.

(** The text of a double [x >= 2^53]: the shortest digits that are read as
    [x], followed by zeros up to 21 digits, and in exponent form beyond. *)
Definition large_to_string (x : Z) : string :=
  let D := Z.of_nat (String.length (decimal x)) in
  match shortestFrom x D 1 17 with
  | None => decimal x
  | Some (s, k, n) =>
      let digits := decimal s in
      if (n <=? 21)%Z then digits ++ zeros (Z.to_nat (n - k))
      else match digits with
           | EmptyString => EmptyString
           | String c EmptyString => String c ("e+" ++ decimal (n - 1))
           | String c rest =>
               String c ("." ++ rest ++ "e+" ++ decimal (n - 1))
           end
  end.

(** The text of a number inside a template literal: an integer below 2^53
    in absolute value is written in decimal digits. *)
Definition num_to_string (n : Num) : string :=
  match double n with
  | NaN => "NaN"
  | PosInf => "Infinity"
  | NegInf => "-Infinity"
  | NegZero => "0"
  | Int z =>
      if (Z.abs z <? 2 ^ 53)%Z then decimal z
      else if (z <? 0)%Z then "-" ++ large_to_string (- z)
      else large_to_string z
  end.

(** The white space and line terminators that [trim] removes, among the
    code units below 256: TAB, LF, VT, FF, CR, SP and NBSP. *)
Definition is_white (c : ascii) : bool :=
  match nat_of_ascii c with
  | 9%nat | 10%nat | 11%nat | 12%nat | 13%nat | 32%nat | 160%nat => true
  | _ => false
  end.

(** [s.trimStart()]. *)
Fixpoint trim_start (s : string) : string :=
  match s with
  | EmptyString => EmptyString
  | String c rest => if is_white c then trim_start rest else s
  end.

(** [s.trimEnd()]: a character is kept when it is not white space or when
    something is kept after it. *)
Fixpoint trim_end (s : string) : string :=
  match s with
  | EmptyString => EmptyString
  | String c rest =>
      match trim_end rest with
      | EmptyString => if is_white c then EmptyString else String c EmptyString
      | kept => String c kept
      end
  end.

(** [s.trim()]. *)
Definition trim (s : string) : string := trim_end (trim_start s).

End Js.

Export Js.

(** ** Reports *)

(** [T extends Record<string, any>]: an object, with the properties of
    its own and those it inherits through its prototype chain. *)
Record Fields := {
  own : gmap string Val;
  inherited : gmap string Val
}.

(** What every object inherits from [Object.prototype], unless its
    prototype chain says otherwise: functions, and the prototype itself
    under [__proto__]. *)
Definition objectPrototype : gmap string Val :=
  {[ "constructor" := VObj 1;
     "hasOwnProperty" := VObj 2;
     "isPrototypeOf" := VObj 3;
     "propertyIsEnumerable" := VObj 4;
     "toLocaleString" := VObj 5;
     "toString" := VObj 6;
     "valueOf" := VObj 7;
     "__proto__" := VObj 8;
     "__defineGetter__" := VObj 9;
     "__defineSetter__" := VObj 10;
     "__lookupGetter__" := VObj 11;
     "__lookupSetter__" := VObj 12 ]}.

(** A plain object: an object literal, or what [JSON.parse] gives. *)
Definition plain (properties : gmap string Val) : Fields :=
  {| own := properties; inherited := objectPrototype |}.

(** [report: T | null | undefined]. *)
Inductive Report :=
| RUndefined
| RNull
| RObj (fields : Fields).

(** [report[field]]: the property of the object itself, else the one it
    inherits, else [undefined]. *)
Definition get (report : Fields) (field : string) : Val :=
  match own report !! field with
  | Some v => v
  | None =>
      match inherited report !! field with
      | Some v => v
      | None => VUndefined
      end
  end.

(** ** Validation configuration *)

(** [ConditionalFieldConfig<T>]. *)
Record ConditionalFieldConfig := {
  conditionField : string;
  conditionValue : Val;
  requiredFields : list string
}.

(** [StringFieldConfig<T>]; [negateCondition] is optional. *)
Record StringFieldConfig := {
  sf_conditionField : string;
  sf_conditionValue : Val;
  stringField : string;
  negateCondition : option bool
}.

(** [ValidationConfig<T>]; the last three members are optional. *)
Record ValidationConfig := {
  minImages : Num;
  baseFields : list string;
  conditionalFields : option (list ConditionalFieldConfig);
  stringFields : option (list StringFieldConfig);
  customValidation : option (Fields -> bool)
}.

(** The truth value of an optional boolean member. *)
Definition truthy (b : option bool) : bool :=
  match b with
  | Some true => true
  | _ => false
  end.

(** ** validateForm *)

(** The test of [checkFields] on one field:
    [value !== null && value !== undefined && value !== '']. *)
Definition fieldPresent (report : Fields) (field : string) : bool :=
  let value := get report field in
  strict_neq value VNull && strict_neq value VUndefined
  && strict_neq value (VStr "").

(** [checkFields]: [fields.every(...)]. *)
Definition checkFields (report : Fields) (fields : list string) : bool :=
  forallb (fieldPresent report) fields.

(** [checkStringField]:
    [typeof value === 'string' && value.trim() !== '']. *)
Definition checkStringField (report : Fields) (field : string) : bool :=
  let value := get report field in
  match value with
  | VStr s => negb (String.eqb (trim s) "")
  | _ => false
  end.

(** The loop over [config.conditionalFields]: [Some false] when the loop
    leaves the function with [return false], [None] when it runs to its
    end. *)
Fixpoint forConditional (report : Fields) (rules : list ConditionalFieldConfig)
  : option bool :=
  match rules with
  | [] => None
  | conditional :: rest =>
      if strict_eq (get report (conditionField conditional))
           (conditionValue conditional)
      then
        if negb (checkFields report (requiredFields conditional))
        then Some false
        else forConditional report rest
      else forConditional report rest
  end.

(** [conditionMet] of the loop over [config.stringFields]. *)
Definition conditionMet (report : Fields) (stringConfig : StringFieldConfig)
  : bool :=
  if truthy (negateCondition stringConfig)
  then strict_neq (get report (sf_conditionField stringConfig))
         (sf_conditionValue stringConfig)
  else strict_eq (get report (sf_conditionField stringConfig))
         (sf_conditionValue stringConfig).

(** The loop over [config.stringFields], with the same convention. *)
Fixpoint forString (report : Fields) (rules : list StringFieldConfig)
  : option bool :=
  match rules with
  | [] => None
  | stringConfig :: rest =>
      if conditionMet report stringConfig
      then
        if negb (checkStringField report (stringField stringConfig))
        then Some false
        else forString report rest
      else forString report rest
  end.

(** An optional array that is absent is skipped. *)
Definition ifPresent {A} (rules : option (list A))
    (loop : list A -> option bool) : option bool :=
  match rules with
  | Some l => loop l
  | None => None
  end.

(** The result of [useFormValidation]. *)
Record ValidationResult := {
  isValid : bool;
  errorMessage : option string
}.

Section Validation.

(** [CapturedImage] is declared in [../types]; the validation never looks
    inside an image. *)
Context {CapturedImage : Type}.

(** [validateForm(report, images, config)]. *)
Definition validateForm (report : Report) (images : list CapturedImage)
    (config : ValidationConfig) : bool :=
  match report with
  | RUndefined | RNull => false
  | RObj r =>
      if length_lt (length images) (minImages config) then false else
      if negb (checkFields r (baseFields config)) then false else
      match ifPresent (conditionalFields config) (forConditional r) with
      | Some result => result
      | None =>
          match ifPresent (stringFields config) (forString r) with
          | Some result => result
          | None =>
              match customValidation config with
              | Some validationFn =>
                  if negb (validationFn r) then false else true
              | None => true
              end
          end
      end
  end.

(** [!report]. *)
Definition absent (report : Report) : bool :=
  match report with
  | RObj _ => false
  | _ => true
  end.

(** [useFormValidation(report, images, config)]. *)
Definition useFormValidation (report : Report) (images : list CapturedImage)
    (config : ValidationConfig) : ValidationResult :=
  let valid := validateForm report images config in
  let message :=
    if negb valid then
      if absent report then Some "Report data is not available."
      else if length_lt (length images) (minImages config) then
        Some ("Please capture at least " ++ num_to_string (minImages config)
              ++ " photos to submit.")
      else Some "Please fill all required fields to submit."
    else None in
  {| isValid := valid; errorMessage := message |}.

End Validation.

(** ** The store and ValidationConfigBuilder *)

(** The builder holds a reference to its configuration object and mutates
    it in place; the two arrays of rules are objects of their own, extended
    by [push]. *)

Abbreviation loc := positive.

(** The configuration object: the arrays are held by reference. *)
Record ConfigObject := {
  o_minImages : Num;
  o_baseFields : list string;
  o_conditionalFields : option loc;
  o_stringFields : option loc;
  o_customValidation : option (Fields -> bool)
}.

Inductive Cell :=
| ConfigCell (o : ConfigObject)
| ConditionalArray (items : list ConditionalFieldConfig)
| StringArray (items : list StringFieldConfig).

Abbreviation Store := (gmap loc Cell).

(** Computations on the store; [None] is a reference that does not hold
    what the code expects there. *)
Definition M (A : Type) : Type := Store -> option (A * Store).

Definition ret {A} (a : A) : M A := fun st => Some (a, st).

Definition bind {A B} (m : M A) (k : A -> M B) : M B :=
  fun st =>
    match m st with
    | Some (a, st') => k a st'
    | None => None
    end.

Notation "'let*' x := m 'in' k" := (bind m (fun x => k))
  (at level 10, x name, m at level 100, k at level 200).

(** A location above every location in use. *)
Definition next (st : Store) : loc :=
  map_fold (fun l _ acc => Pos.max (Pos.succ l) acc) 1%positive st.

(** A new object. *)
Definition alloc (c : Cell) : M loc :=
  fun st => let l := next st in Some (l, <[l := c]> st).

Definition readConfig (c : loc) : M ConfigObject :=
  fun st =>
    match st !! c with
    | Some (ConfigCell o) => Some (o, st)
    | _ => None
    end.

Definition writeConfig (c : loc) (o : ConfigObject) : M unit :=
  fun st => Some (tt, <[c := ConfigCell o]> st).

(** [array.push(item)] on an array of conditional rules. *)
Definition pushConditional (a : loc) (item : ConditionalFieldConfig) : M unit :=
  fun st =>
    match st !! a with
    | Some (ConditionalArray items) =>
        Some (tt, <[a := ConditionalArray (items ++ [item])]> st)
    | _ => None
    end.

(** [array.push(item)] on an array of string rules. *)
Definition pushString (a : loc) (item : StringFieldConfig) : M unit :=
  fun st =>
    match st !! a with
    | Some (StringArray items) =>
        Some (tt, <[a := StringArray (items ++ [item])]> st)
    | _ => None
    end.

Module ValidationConfigBuilder.

(** [private config: ValidationConfig<T>]. *)
Record t := { config : loc }.

(** [constructor(minImages, baseFields)]. *)
Definition new (minImages : Num) (baseFields : list string) : M t :=
  let* conditionals := alloc (ConditionalArray []) in
  let* strings := alloc (StringArray []) in
  let* c := alloc (ConfigCell {| o_minImages := minImages;
                                 o_baseFields := baseFields;
                                 o_conditionalFields := Some conditionals;
                                 o_stringFields := Some strings;
                                 o_customValidation := None |}) in
  ret {| config := c |}.

(** [if (!this.config.conditionalFields) this.config.conditionalFields = []],
    then the array. *)
Definition conditionalFieldsOf (this : t) : M loc :=
  let* o := readConfig (config this) in
  match o_conditionalFields o with
  | Some a => ret a
  | None =>
      let* a := alloc (ConditionalArray []) in
      let* _ := writeConfig (config this)
                  {| o_minImages := o_minImages o;
                     o_baseFields := o_baseFields o;
                     o_conditionalFields := Some a;
                     o_stringFields := o_stringFields o;
                     o_customValidation := o_customValidation o |} in
      ret a
  end.

(** [addConditionalFields(conditionField, conditionValue, requiredFields)]. *)
Definition addConditionalFields (this : t) (conditionField : string)
    (conditionValue : Val) (requiredFields : list string) : M t :=
  let* a := conditionalFieldsOf this in
  let* _ := pushConditional a {| conditionField := conditionField;
                                 conditionValue := conditionValue;
                                 requiredFields := requiredFields |} in
  ret this.

(** [if (!this.config.stringFields) this.config.stringFields = []], then
    the array. *)
Definition stringFieldsOf (this : t) : M loc :=
  let* o := readConfig (config this) in
  match o_stringFields o with
  | Some a => ret a
  | None =>
      let* a := alloc (StringArray []) in
      let* _ := writeConfig (config this)
                  {| o_minImages := o_minImages o;
                     o_baseFields := o_baseFields o;
                     o_conditionalFields := o_conditionalFields o;
                     o_stringFields := Some a;
                     o_customValidation := o_customValidation o |} in
      ret a
  end.

(** [addStringField(conditionField, conditionValue, stringField,
    negateCondition = false)]: a call without its last argument is
    [None]. *)
Definition addStringField (this : t) (conditionField : string)
    (conditionValue : Val) (stringField : string)
    (negateCondition : option bool) : M t :=
  let negateCondition := default false negateCondition in
  let* a := stringFieldsOf this in
  let* _ := pushString a {| sf_conditionField := conditionField;
                            sf_conditionValue := conditionValue;
                            stringField := stringField;
                            negateCondition := Some negateCondition |} in
  ret this.

(** [addCustomValidation(validationFn)]. *)
Definition addCustomValidation (this : t) (validationFn : Fields -> bool)
  : M t :=
  let* o := readConfig (config this) in
  let* _ := writeConfig (config this)
              {| o_minImages := o_minImages o;
                 o_baseFields := o_baseFields o;
                 o_conditionalFields := o_conditionalFields o;
                 o_stringFields := o_stringFields o;
                 o_customValidation := Some validationFn |} in
  ret this.

(** [build()]: [return this.config]. *)
Definition build (this : t) : M loc := ret (config this).

End ValidationConfigBuilder.

(** The configuration that the object at [c] holds in the store [st]. *)
Definition configAt (st : Store) (c : loc) : option ValidationConfig :=
  match st !! c with
  | Some (ConfigCell o) =>
      match
        match o_conditionalFields o with
        | None => Some None
        | Some a =>
            match st !! a with
            | Some (ConditionalArray items) => Some (Some items)
            | _ => None
            end
        end,
        match o_stringFields o with
        | None => Some None
        | Some a =>
            match st !! a with
            | Some (StringArray items) => Some (Some items)
            | _ => None
            end
        end
      with
      | Some conditionals, Some strings =>
          Some {| minImages := o_minImages o;
                  baseFields := o_baseFields o;
                  conditionalFields := conditionals;
                  stringFields := strings;
                  customValidation := o_customValidation o |}
      | _, _ => None
      end
  | _ => None
  end.

(** [validateForm] on a configuration held in the store: it reads the
    object and writes nothing. *)
Definition validateFormAt {CapturedImage : Type} (report : Report)
    (images : list CapturedImage) (c : loc) : M bool :=
  fun st =>
    match configAt st c with
    | Some config => Some (validateForm report images config, st)
    | None => None
    end.

(** ** The rules as conjuncts *)

(** What one turn of the loop over [config.conditionalFields] asks. *)
Definition conditionalHolds (report : Fields) (c : ConditionalFieldConfig)
  : bool :=
  if strict_eq (get report (conditionField c)) (conditionValue c)
  then checkFields report (requiredFields c)
  else true.

(** What one turn of the loop over [config.stringFields] asks. *)
Definition stringHolds (report : Fields) (s : StringFieldConfig) : bool :=
  if conditionMet report s
  then checkStringField report (stringField s)
  else true.

(** What [config.customValidation] asks. *)
Definition customHolds (report : Fields) (validationFn : option (Fields -> bool))
  : bool :=
  match validationFn with
  | Some f => f report
  | None => true
  end.

(** The rules of an optional array. *)
Definition rulesOf {A} (rules : option (list A)) : list A := default [] rules.

(** A value that is a string with something left after trimming. *)
Definition nonEmptyAfterTrim (v : Val) : Prop :=
  exists s, v = VStr s /\ trim s <> "".

(** The number 0 or the boolean false. *)
Definition zeroOrFalse (v : Val) : Prop :=
  v = VNum (Int 0) \/ v = VBool false.

(** [config] with another array of string rules. *)
Definition withStringFields (config : ValidationConfig)
    (rules : list StringFieldConfig) : ValidationConfig :=
  {| minImages := minImages config;
     baseFields := baseFields config;
     conditionalFields := conditionalFields config;
     stringFields := Some rules;
     customValidation := customValidation config |}.

(** The configuration of the scenario with a hold reason:
    [{ minImages: 2, baseFields: ['status'],
       stringFields: [{ conditionField: 'status', conditionValue: 'Hold',
                        stringField: 'holdReason' }] }]. *)
Definition holdConfig : ValidationConfig :=
  {| minImages := Int 2;
     baseFields := ["status"];
     conditionalFields := None;
     stringFields := Some [ {| sf_conditionField := "status";
                               sf_conditionValue := VStr "Hold";
                               stringField := "holdReason";
                               negateCondition := None |} ];
     customValidation := None |}.

(** A configuration with two conditional rules on different fields:
    an opened office asks for the met person and the designation, a shown
    document asks for its type. *)
Definition officeConfig : ValidationConfig :=
  {| minImages := Int 0;
     baseFields := ["officeStatus"];
     conditionalFields :=
       Some [ {| conditionField := "officeStatus";
                 conditionValue := VStr "Opened";
                 requiredFields := ["metPerson"; "designation"] |};
              {| conditionField := "documentShownStatus";
                 conditionValue := VStr "Showed";
                 requiredFields := ["documentType"] |} ];
     stringFields := None;
     customValidation := None |}.

(** A configuration whose required fields take the values 0 and false:
    a visit count and a flag, and the number of attempts when the flag is
    false. *)
Definition visitConfig : ValidationConfig :=
  {| minImages := Int 1;
     baseFields := ["visits"; "verified"];
     conditionalFields :=
       Some [ {| conditionField := "verified";
                 conditionValue := VBool false;
                 requiredFields := ["attempts"] |} ];
     stringFields := Some [];
     customValidation := None |}.

(** The calls that extend a builder. *)
Inductive BuilderCall :=
| AddConditionalFields (conditionField : string) (conditionValue : Val)
    (requiredFields : list string)
| AddStringField (conditionField : string) (conditionValue : Val)
    (stringField : string) (negateCondition : option bool)
| AddCustomValidation (validationFn : Fields -> bool).

Definition call (this : ValidationConfigBuilder.t) (op : BuilderCall)
  : M ValidationConfigBuilder.t :=
  match op with
  | AddConditionalFields f v required =>
      ValidationConfigBuilder.addConditionalFields this f v required
  | AddStringField f v target negate =>
      ValidationConfigBuilder.addStringField this f v target negate
  | AddCustomValidation validationFn =>
      ValidationConfigBuilder.addCustomValidation this validationFn
  end.

(** What a call adds to the configuration that the builder holds. *)
Definition extend (config : ValidationConfig) (op : BuilderCall)
  : ValidationConfig :=
  match op with
  | AddConditionalFields f v required =>
      {| minImages := minImages config;
         baseFields := baseFields config;
         conditionalFields :=
           Some (rulesOf (conditionalFields config)
                 ++ [ {| conditionField := f; conditionValue := v;
                         requiredFields := required |} ])%list;
         stringFields := stringFields config;
         customValidation := customValidation config |}
  | AddStringField f v target negate =>
      withStringFields config
        (rulesOf (stringFields config)
         ++ [ {| sf_conditionField := f; sf_conditionValue := v;
                 stringField := target;
                 negateCondition := Some (default false negate) |} ])%list
  | AddCustomValidation validationFn =>
      {| minImages := minImages config;
         baseFields := baseFields config;
         conditionalFields := conditionalFields config;
         stringFields := stringFields config;
         customValidation := Some validationFn |}
  end.


(** [builder.addCustomValidation(f).addCustomValidation(g).build()]. *)
Definition customTwice (b : ValidationConfigBuilder.t)
    (f g : Fields -> bool) : M loc :=
  let* b1 := ValidationConfigBuilder.addCustomValidation b f in
  let* b2 := ValidationConfigBuilder.addCustomValidation b1 g in
  ValidationConfigBuilder.build b2.

(** The store after [new ValidationConfigBuilder(2, ['status'])] in an empty
    store, and the builder. *)
Definition holdStore : Store :=
  <[3%positive := ConfigCell {| o_minImages := Int 2;
                                o_baseFields := ["status"];
                                o_conditionalFields := Some 1%positive;
                                o_stringFields := Some 2%positive;
                                o_customValidation := None |}]>
    (<[2%positive := StringArray []]>
       (<[1%positive := ConditionalArray []]> ∅)).

Definition holdBuilder : ValidationConfigBuilder.t :=
  {| ValidationConfigBuilder.config := 3%positive |}.

(** ** Configurations and chains of calls *)

(** [config] with another array of conditional rules. *)
Definition withConditionalFields (config : ValidationConfig)
    (rules : list ConditionalFieldConfig) : ValidationConfig :=
  {| minImages := minImages config;
     baseFields := baseFields config;
     conditionalFields := Some rules;
     stringFields := stringFields config;
     customValidation := customValidation config |}.

(** The configuration that the constructor of the builder sets up. *)
Definition initialConfig (minImages : Num) (baseFields : list string)
  : ValidationConfig :=
  {| minImages := minImages; baseFields := baseFields;
     conditionalFields := Some []; stringFields := Some [];
     customValidation := None |}.

(** A fluent chain [builder.op1(...).op2(...)...]: each call is made on the
    builder that the call before it returned. *)
Fixpoint chain (this : ValidationConfigBuilder.t) (ops : list BuilderCall)
  : M ValidationConfigBuilder.t :=
  match ops with
  | [] => ret this
  | op :: rest => let* this' := call this op in chain this' rest
  end.

(** [new ValidationConfigBuilder(minImages, baseFields).op1(...)...build()]. *)
Definition buildWith (minImages : Num) (baseFields : list string)
    (ops : list BuilderCall) : M loc :=
  let* b := ValidationConfigBuilder.new minImages baseFields in
  let* b' := chain b ops in
  ValidationConfigBuilder.build b'.

(** The objects that a configuration at [c] is made of: the configuration
    object and the arrays it refers to. *)
Definition footprint (st : Store) (c : loc) : list loc :=
  match st !! c with
  | Some (ConfigCell o) =>
      c :: (match o_conditionalFields o with Some a => [a] | None => [] end
            ++ match o_stringFields o with Some a => [a] | None => [] end)%list
  | _ => []
  end.

(** Two configurations that share no object. *)
Definition separate (st : Store) (c1 c2 : loc) : Prop :=
  forall l, In l (footprint st c1) -> ~ In l (footprint st c2).

(** ** The environment configuration *)

(** [parseInt(s, 10)]: white space is skipped, then an optional sign, then
    the longest run of decimal digits is read, as the number that they
    denote; [NaN] when there is none. (An engine is free to read the digits
    after the twentieth as zeros; they are read as they are here.) *)

(** The value of a decimal digit. *)
Definition digit (c : ascii) : option Z :=
  let n := nat_of_ascii c in
  if (48 <=? n)%nat && (n <=? 57)%nat then Some (Z.of_nat n - 48) else None.

(** The digits at the start of [s], read from the left onto [acc]. *)
Fixpoint digits (s : string) (acc : Z) : Z :=
  match s with
  | EmptyString => acc
  | String c rest =>
      match digit c with
      | Some d => digits rest (10 * acc + d)
      | None => acc
      end
  end.

(** The number that starts [s], without sign. *)
Definition unsignedInt (s : string) : option Z :=
  match s with
  | EmptyString => None
  | String c _ =>
      match digit c with
      | Some _ => Some (digits s 0)
      | None => None
      end
  end.

Definition parseInt (s : string) : Num :=
  let trimmed := trim_start s in
  let (negative, body) :=
    match trimmed with
    | String "-" rest => (true, rest)
    | String "+" rest => (false, rest)
    | _ => (false, trimmed)
    end in
  match unsignedInt body with
  | Some n =>
      if negative
      then if Z.eqb n 0 then NegZero else toNumber (- n)
      else toNumber n
  | None => NaN
  end.

(** The truth value of a value: [!!v]. *)
Definition toBoolean (v : Val) : bool :=
  match v with
  | VUndefined | VNull => false
  | VBool b => b
  | VNum NaN => false
  | VNum NegZero => false
  | VNum (Int z) => negb (Z.eqb z 0)
  | VNum _ => true
  | VStr s => negb (String.eqb s "")
  | VObj _ => true
  end.

(** A call returns or throws [new Error(message)]. *)
Inductive Outcome (A : Type) :=
| Returned (a : A)
| Thrown (message : string).

Arguments Returned {A} a.
Arguments Thrown {A} message.

(** The value of a decimal numeral read from the left onto [acc]. *)
Fixpoint numeralValue (d : Decimal.uint) (acc : Z) : Z :=
  match d with
  | Decimal.Nil => acc
  | Decimal.D0 d => numeralValue d (10 * acc + 0)
  | Decimal.D1 d => numeralValue d (10 * acc + 1)
  | Decimal.D2 d => numeralValue d (10 * acc + 2)
  | Decimal.D3 d => numeralValue d (10 * acc + 3)
  | Decimal.D4 d => numeralValue d (10 * acc + 4)
  | Decimal.D5 d => numeralValue d (10 * acc + 5)
  | Decimal.D6 d => numeralValue d (10 * acc + 6)
  | Decimal.D7 d => numeralValue d (10 * acc + 7)
  | Decimal.D8 d => numeralValue d (10 * acc + 8)
  | Decimal.D9 d => numeralValue d (10 * acc + 9)
  end.

Module EnvironmentConfig.

(** [Config] of react-native-config: a name is bound to a string or to
    nothing. *)
Abbreviation Env := (gmap string string).

(** [AppConfig]. *)
Record AppConfig := {
  NODE_ENV : string;
  APP_VERSION : string;
  APP_NAME : string;
  API_KEY : string;
  API_BASE_URL : string;
  API_TIMEOUT : Num;
  JWT_SECRET : option string;
  OAUTH_CLIENT_ID : option string;
  OAUTH_CLIENT_SECRET : option string;
  DATABASE_URL : option string;
  ANALYTICS_KEY : option string;
  CRASHLYTICS_KEY : option string;
  FCM_SERVER_KEY : option string;
  ENABLE_ANALYTICS : bool;
  ENABLE_CRASH_REPORTING : bool;
  ENABLE_PUSH_NOTIFICATIONS : bool;
  ENABLE_DEBUG_MODE : bool;
  CODEPUSH_DEPLOYMENT_KEY_ANDROID : option string;
  CODEPUSH_DEPLOYMENT_KEY_IOS : option string;
  BUNDLE_ID : string;
  PACKAGE_NAME : string
}.

(** [value || fallback] on [string | undefined]. *)
Definition orElse (value : option string) (fallback : string) : string :=
  match value with
  | Some EmptyString => fallback
  | Some s => s
  | None => fallback
  end.

(** [value === 'true'] on [string | undefined]. *)
Definition isTrue (value : option string) : bool :=
  match value with
  | Some s => String.eqb s "true"
  | None => false
  end.

(** [loadConfig()]. *)
Definition loadConfig (Config : Env) : AppConfig :=
  {| NODE_ENV := orElse (Config !! "NODE_ENV") "development";
     APP_VERSION := orElse (Config !! "APP_VERSION") "1.0.0";
     APP_NAME := orElse (Config !! "APP_NAME") "CaseFlow Mobile";
     API_KEY := orElse (Config !! "API_KEY") "";
     API_BASE_URL := orElse (Config !! "API_BASE_URL") "http://localhost:3000";
     API_TIMEOUT := parseInt (orElse (Config !! "API_TIMEOUT") "30000");
     JWT_SECRET := Config !! "JWT_SECRET";
     OAUTH_CLIENT_ID := Config !! "OAUTH_CLIENT_ID";
     OAUTH_CLIENT_SECRET := Config !! "OAUTH_CLIENT_SECRET";
     DATABASE_URL := Config !! "DATABASE_URL";
     ANALYTICS_KEY := Config !! "ANALYTICS_KEY";
     CRASHLYTICS_KEY := Config !! "CRASHLYTICS_KEY";
     FCM_SERVER_KEY := Config !! "FCM_SERVER_KEY";
     ENABLE_ANALYTICS := isTrue (Config !! "ENABLE_ANALYTICS");
     ENABLE_CRASH_REPORTING := isTrue (Config !! "ENABLE_CRASH_REPORTING");
     ENABLE_PUSH_NOTIFICATIONS := isTrue (Config !! "ENABLE_PUSH_NOTIFICATIONS");
     ENABLE_DEBUG_MODE := isTrue (Config !! "ENABLE_DEBUG_MODE");
     CODEPUSH_DEPLOYMENT_KEY_ANDROID :=
       Config !! "CODEPUSH_DEPLOYMENT_KEY_ANDROID";
     CODEPUSH_DEPLOYMENT_KEY_IOS := Config !! "CODEPUSH_DEPLOYMENT_KEY_IOS";
     BUNDLE_ID := orElse (Config !! "BUNDLE_ID") "com.caseflowmobilern";
     PACKAGE_NAME := orElse (Config !! "PACKAGE_NAME") "com.caseflowmobilern" |}.

(** An optional string as a value. *)
Definition optional (value : option string) : Val :=
  match value with
  | Some s => VStr s
  | None => VUndefined
  end.

(** [config[field as keyof AppConfig]]. *)
Definition member (config : AppConfig) (field : string) : Val :=
  if String.eqb field "NODE_ENV" then VStr (NODE_ENV config)
  else if String.eqb field "APP_VERSION" then VStr (APP_VERSION config)
  else if String.eqb field "APP_NAME" then VStr (APP_NAME config)
  else if String.eqb field "API_KEY" then VStr (API_KEY config)
  else if String.eqb field "API_BASE_URL" then VStr (API_BASE_URL config)
  else if String.eqb field "API_TIMEOUT" then VNum (API_TIMEOUT config)
  else if String.eqb field "JWT_SECRET" then optional (JWT_SECRET config)
  else if String.eqb field "OAUTH_CLIENT_ID"
  then optional (OAUTH_CLIENT_ID config)
  else if String.eqb field "OAUTH_CLIENT_SECRET"
  then optional (OAUTH_CLIENT_SECRET config)
  else if String.eqb field "DATABASE_URL" then optional (DATABASE_URL config)
  else if String.eqb field "ANALYTICS_KEY" then optional (ANALYTICS_KEY config)
  else if String.eqb field "CRASHLYTICS_KEY"
  then optional (CRASHLYTICS_KEY config)
  else if String.eqb field "FCM_SERVER_KEY"
  then optional (FCM_SERVER_KEY config)
  else if String.eqb field "ENABLE_ANALYTICS"
  then VBool (ENABLE_ANALYTICS config)
  else if String.eqb field "ENABLE_CRASH_REPORTING"
  then VBool (ENABLE_CRASH_REPORTING config)
  else if String.eqb field "ENABLE_PUSH_NOTIFICATIONS"
  then VBool (ENABLE_PUSH_NOTIFICATIONS config)
  else if String.eqb field "ENABLE_DEBUG_MODE"
  then VBool (ENABLE_DEBUG_MODE config)
  else if String.eqb field "CODEPUSH_DEPLOYMENT_KEY_ANDROID"
  then optional (CODEPUSH_DEPLOYMENT_KEY_ANDROID config)
  else if String.eqb field "CODEPUSH_DEPLOYMENT_KEY_IOS"
  then optional (CODEPUSH_DEPLOYMENT_KEY_IOS config)
  else if String.eqb field "BUNDLE_ID" then VStr (BUNDLE_ID config)
  else if String.eqb field "PACKAGE_NAME" then VStr (PACKAGE_NAME config)
  else VUndefined.

(** [validateConfig()]: the warnings written with [console.warn], and the
    outcome. *)
Definition validateConfig (config : AppConfig) : list string * Outcome unit :=
  let requiredFields := ["API_KEY"] in
  let missingFields :=
    List.filter (fun field => negb (toBoolean (member config field)))
      requiredFields in
  if (0 <? length missingFields)%nat then
    let message :=
      "Missing required environment variables: "
      ++ String.concat ", " missingFields in
    if String.eqb (NODE_ENV config) "production"
    then ([message], Thrown message)
    else ([message], Returned tt)
  else ([], Returned tt).

(** [private config: AppConfig]. *)
Record t := { config : AppConfig }.

(** [constructor()], for the [Config] that the application was built
    with. *)
Definition new (Config : Env) : list string * Outcome t :=
  let config := loadConfig Config in
  match validateConfig config with
  | (warnings, Returned _) => (warnings, Returned {| config := config |})
  | (warnings, Thrown message) => (warnings, Thrown message)
  end.

(** [get()]. *)
Definition get (this : t) : AppConfig := config this.

(** [getApiKey()]. *)
Definition getApiKey (this : t) : Outcome string :=
  if negb (toBoolean (VStr (API_KEY (config this))))
  then Thrown "API_KEY environment variable is not set."
  else Returned (API_KEY (config this)).

(** [getApiBaseUrl()]. *)
Definition getApiBaseUrl (this : t) : string := API_BASE_URL (config this).

(** [isProduction()]. *)
Definition isProduction (this : t) : bool :=
  String.eqb (NODE_ENV (config this)) "production".

(** [isDevelopment()]. *)
Definition isDevelopment (this : t) : bool :=
  String.eqb (NODE_ENV (config this)) "development".

(** [isStaging()]. *)
Definition isStaging (this : t) : bool :=
  String.eqb (NODE_ENV (config this)) "staging".

(** The names that [isFeatureEnabled] takes. *)
Inductive Feature :=
| EnableAnalytics
| EnableCrashReporting
| EnablePushNotifications
| EnableDebugMode.

(** The name itself. *)
Definition featureName (feature : Feature) : string :=
  match feature with
  | EnableAnalytics => "ENABLE_ANALYTICS"
  | EnableCrashReporting => "ENABLE_CRASH_REPORTING"
  | EnablePushNotifications => "ENABLE_PUSH_NOTIFICATIONS"
  | EnableDebugMode => "ENABLE_DEBUG_MODE"
  end.

(** [isFeatureEnabled(feature)]: [this.config[feature]]. *)
Definition isFeatureEnabled (this : t) (feature : Feature) : bool :=
  match member (config this) (featureName feature) with
  | VBool b => b
  | _ => false
  end.

End EnvironmentConfig.

(** The message of [validateConfig] when the key of the API is missing. *)
Definition missingApiKey : string :=
  "Missing required environment variables: API_KEY".

(** ** The evaluator with a custom validation that keeps state *)

(** [customValidation?: (report: T) => boolean] is any JavaScript function:
    it may read and update variables of its own between calls. [World] is
    that state; the rest of the configuration is as before. *)
Module Stateful.

Section World.

Context {World : Type}.

(** [ValidationConfig<T>]. *)
Record ValidationConfig := {
  minImages : Num;
  baseFields : list string;
  conditionalFields : option (list ConditionalFieldConfig);
  stringFields : option (list StringFieldConfig);
  customValidation : option (Fields -> World -> bool * World)
}.

(** [validateForm(report, images, config)], in the state [w] of the custom
    validation: the result and the state afterwards. *)
Definition validateForm {CapturedImage : Type} (report : Report)
    (images : list CapturedImage) (config : ValidationConfig) (w : World)
  : bool * World :=
  match report with
  | RUndefined | RNull => (false, w)
  | RObj r =>
      if length_lt (length images) (minImages config) then (false, w) else
      if negb (checkFields r (baseFields config)) then (false, w) else
      match ifPresent (conditionalFields config) (forConditional r) with
      | Some result => (result, w)
      | None =>
          match ifPresent (stringFields config) (forString r) with
          | Some result => (result, w)
          | None =>
              match customValidation config with
              | Some validationFn =>
                  let (accepted, w') := validationFn r w in
                  if negb accepted then (false, w') else (true, w')
              | None => (true, w)
              end
          end
      end
  end.


End World.

Arguments ValidationConfig World : clear implicits.

End Stateful.

(** A configuration whose custom validation does not use the state. *)
Definition lift {World : Type} (config : ValidationConfig)
  : Stateful.ValidationConfig World :=
  {| Stateful.minImages := minImages config;
     Stateful.baseFields := baseFields config;
     Stateful.conditionalFields := conditionalFields config;
     Stateful.stringFields := stringFields config;
     Stateful.customValidation :=
       match customValidation config with
       | Some validationFn => Some (fun r w => (validationFn r, w))
       | None => None
       end |}.


(** Two cells of different kinds are at different locations. *)
Ltac distinct_locs :=
  repeat match goal with
    | H1 : ?st !! ?a = Some _, H2 : ?st !! ?b = Some _ |- _ =>
        lazymatch goal with
        | _ : a <> b |- _ => fail
        | _ => assert (a <> b) by (intros ->; rewrite H1 in H2; discriminate)
        end
    | H1 : ?st !! ?a = None, H2 : ?st !! ?b = Some _ |- _ =>
        lazymatch goal with
        | _ : a <> b |- _ => fail
        | _ => assert (a <> b) by (intros ->; rewrite H1 in H2; discriminate)
        end
    end.

(** ** Lemmas on numbers *)

Lemma nearest_small a : (a < 2 ^ 53)%Z -> nearest a = Some a.
Proof.
  intros H. unfold nearest. apply Z.ltb_lt in H. now rewrite H.
Qed.

Lemma nearest_nonneg a v : (0 <= a)%Z -> nearest a = Some v -> (0 <= v)%Z.
Proof.
  intros Ha. unfold nearest.
  destruct (a <? 2 ^ 53)%Z; [intros E; injection E as <-; exact Ha|].
  set (e := (Z.log2 a - 52)%Z). set (q := Z.shiftr a e).
  assert (Hq : (0 <= q)%Z) by (apply Z.shiftr_nonneg; exact Ha).
  destruct (_ <? 2 ^ 1024)%Z; [|discriminate].
  intros E. injection E as <-. apply Z.shiftl_nonneg.
  destruct (_ <? _)%Z; [exact Hq|].
  destruct (_ <? _)%Z; [lia|]. destruct (Z.even q); lia.
Qed.

Lemma toNumber_small z : (Z.abs z < 2 ^ 53)%Z -> toNumber z = Int z.
Proof.
  intros H. destruct z as [|p|p]; simpl toNumber.
  - reflexivity.
  - rewrite nearest_small by (rewrite Z.abs_eq in H; lia). reflexivity.
  - rewrite nearest_small by (simpl in H |- *; lia). simpl. reflexivity.
Qed.

(** Below 2^53 the comparison with a length is the one of the integers. *)
Lemma length_lt_Int c n :
  (n < 2 ^ 53)%Z -> length_lt c (Int n) = (Z.of_nat c <? n)%Z.
Proof.
  intros H. unfold length_lt. simpl double.
  destruct n as [|p|p]; simpl toNumber.
  - reflexivity.
  - now rewrite nearest_small.
  - destruct (nearest (- Z.neg p)) as [v|] eqn:E.
    + apply nearest_nonneg in E; [|simpl; lia].
      transitivity false; [apply Z.ltb_ge; lia | symmetry; apply Z.ltb_ge; lia].
    + symmetry. apply Z.ltb_ge. lia.
Qed.

(** Below 2^53 in absolute value the text of an integer is its decimal
    digits. *)
Lemma num_to_string_small n :
  (Z.abs n < 2 ^ 53)%Z ->
  num_to_string (Int n) = NilZero.string_of_int (Z.to_int n).
Proof.
  intros H. unfold num_to_string. simpl double. rewrite toNumber_small by exact H.
  apply Z.ltb_lt in H. now rewrite H.
Qed.

(** Beyond 2^53 a number is written with the fewest digits that are read
    back as it, and from 10^21 on in exponent form. *)
Example num_to_string_large :
  num_to_string (Int (2 ^ 60)) = "1152921504606847000"
  /\ num_to_string (Int 9007199254740993) = "9007199254740992"
  /\ num_to_string (Int (- 2 ^ 60)) = "-1152921504606847000"
  /\ num_to_string (Int (10 ^ 21)) = "1e+21"
  /\ num_to_string (Int (2 ^ 70)) = "1.1805916207174113e+21"
  /\ num_to_string (Int (2 ^ 1024)) = "Infinity".
Proof. repeat split; vm_compute; reflexivity. Qed.

(** Integers that no double tells apart are equal. *)
Example strict_eq_rounds :
  strict_eq (VNum (Int 9007199254740993)) (VNum (Int 9007199254740992)) = true
  /\ strict_eq (VNum NegZero) (VNum (Int 0)) = true
  /\ strict_eq (VNum NaN) (VNum NaN) = false.
Proof. repeat split; vm_compute; reflexivity. Qed.

(** ** Lemmas on the evaluator *)

Lemma forConditional_forallb report rules :
  forConditional report rules =
  if forallb (conditionalHolds report) rules then None else Some false.
Proof.
  induction rules as [|c rest IH]; simpl; [reflexivity|].
  unfold conditionalHolds at 1.
  destruct (strict_eq _ _); simpl; [|exact IH].
  destruct (checkFields _ _); simpl; [exact IH|reflexivity].
Qed.

Lemma forString_forallb report rules :
  forString report rules =
  if forallb (stringHolds report) rules then None else Some false.
Proof.
  induction rules as [|c rest IH]; simpl; [reflexivity|].
  unfold stringHolds at 1.
  destruct (conditionMet _ _); simpl; [|exact IH].
  destruct (checkStringField _ _); simpl; [exact IH|reflexivity].
Qed.

(** [validateForm] on a present report is the conjunction of its checks. *)
Lemma validateForm_obj {CapturedImage} r (images : list CapturedImage) config :
  validateForm (RObj r) images config =
  negb (length_lt (length images) (minImages config))
  && checkFields r (baseFields config)
  && forallb (conditionalHolds r) (rulesOf (conditionalFields config))
  && forallb (stringHolds r) (rulesOf (stringFields config))
  && customHolds r (customValidation config).
Proof.
  unfold validateForm, ifPresent, rulesOf, customHolds.
  destruct (length_lt _ _); simpl; [reflexivity|].
  destruct (checkFields _ _); simpl; [|reflexivity].
  destruct (conditionalFields config) as [cs|]; simpl.
  - rewrite forConditional_forallb.
    destruct (forallb (conditionalHolds r) cs); simpl; [|reflexivity].
    destruct (stringFields config) as [ss|]; simpl.
    + rewrite forString_forallb.
      destruct (forallb (stringHolds r) ss); simpl; [|reflexivity].
      destruct (customValidation config) as [f|]; [|reflexivity].
      destruct (f r); reflexivity.
    + destruct (customValidation config) as [f|]; [|reflexivity].
      destruct (f r); reflexivity.
  - destruct (stringFields config) as [ss|]; simpl.
    + rewrite forString_forallb.
      destruct (forallb (stringHolds r) ss); simpl; [|reflexivity].
      destruct (customValidation config) as [f|]; [|reflexivity].
      destruct (f r); reflexivity.
    + destruct (customValidation config) as [f|]; [|reflexivity].
      destruct (f r); reflexivity.
Qed.

(** Trimming leaves nothing exactly when every character is white space. *)
Lemma trim_start_empty s :
  trim_start s = "" <-> forallb is_white (list_ascii_of_string s) = true.
Proof.
  induction s as [|c s IH]; simpl; [tauto|].
  destruct (is_white c); simpl; [exact IH|].
  split; discriminate.
Qed.

Lemma trim_end_empty s :
  trim_end s = "" <-> forallb is_white (list_ascii_of_string s) = true.
Proof.
  induction s as [|c s IH]; simpl; [tauto|].
  destruct (trim_end s) as [|c' kept].
  - destruct (is_white c); simpl.
    + split; [intros _; now apply IH | reflexivity].
    + split; discriminate.
  - split; [discriminate|]. intros H. apply andb_true_iff in H.
    destruct H as [_ H]. apply IH in H. discriminate.
Qed.

Lemma trim_start_head s c rest :
  trim_start s = String c rest -> is_white c = false.
Proof.
  induction s as [|d s IH]; simpl; [discriminate|].
  destruct (is_white d) eqn:E; [exact IH|].
  intros H. injection H as <- _. exact E.
Qed.

Lemma trim_empty s :
  trim s = "" <-> forallb is_white (list_ascii_of_string s) = true.
Proof.
  unfold trim. rewrite <- trim_start_empty.
  destruct (trim_start s) as [|c rest] eqn:E; simpl; [tauto|].
  split; [|discriminate].
  rewrite (trim_start_head _ _ _ E).
  destruct (trim_end rest); discriminate.
Qed.

(** The presence test fails on [null], [undefined] and [''] only. *)
Lemma fieldPresent_false report field :
  fieldPresent report field = false <->
  get report field = VNull \/ get report field = VUndefined
  \/ get report field = VStr "".
Proof.
  unfold fieldPresent. destruct (get report field) as [| |b|n|s|o]; simpl.
  - split; auto.
  - split; auto.
  - split; [discriminate|]. intros [H|[H|H]]; discriminate.
  - split; [discriminate|]. intros [H|[H|H]]; discriminate.
  - destruct s as [|c s]; simpl.
    + split; auto.
    + split; [discriminate|]. intros [H|[H|H]]; discriminate.
  - split; [discriminate|]. intros [H|[H|H]]; discriminate.
Qed.

Lemma checkStringField_spec report field :
  checkStringField report field = true <-> nonEmptyAfterTrim (get report field).
Proof.
  unfold checkStringField, nonEmptyAfterTrim.
  destruct (get report field) as [| |b|n|s|o];
    try (split; [discriminate | intros (s' & H & _); discriminate]).
  rewrite negb_true_iff. split.
  - intros H. exists s. split; [reflexivity|].
    intros E. rewrite E in H. discriminate.
  - intros (s' & E & H). injection E as <-.
    now apply String.eqb_neq.
Qed.

Lemma checkFields_missing report fields field :
  In field fields -> fieldPresent report field = false ->
  checkFields report fields = false.
Proof.
  intros Hin Hf. unfold checkFields.
  destruct (forallb _ _) eqn:E; [|reflexivity].
  rewrite forallb_forall in E. rewrite (E _ Hin) in Hf. discriminate.
Qed.

(** ** The scenarios and properties of the specification *)

(** C1. With [minImages = 2], [baseFields = ['status']] and one string rule
    (condition field [status], condition value ['Hold'], target
    [holdReason]): a record on hold whose reason is blank is rejected with
    two images, one with the reason ['pending docs'] is accepted with two
    images, and a clear record with one image is rejected with the message
    asking for at least 2 photos. *)
Theorem hold_scenario (CapturedImage : Type) (i1 i2 : CapturedImage) :
  validateForm
    (RObj (plain {[ "status" := VStr "Hold"; "holdReason" := VStr "  " ]}))
    [i1; i2] holdConfig = false
  /\ validateForm
       (RObj (plain {[ "status" := VStr "Hold";
                       "holdReason" := VStr "pending docs" ]}))
       [i1; i2] holdConfig = true
  /\ useFormValidation
      (RObj (plain {[ "status" := VStr "Clear" ]}))
      [i1] holdConfig =
     {| isValid := false;
        errorMessage := Some "Please capture at least 2 photos to submit." |}.
Proof. repeat split; vm_compute; reflexivity. Qed.

(** C2. Whatever the images and the configuration, an absent report
    ([null] or [undefined]) is invalid, and the message is exactly
    "Report data is not available.". *)
Theorem absent_report_rejected (CapturedImage : Type)
    (images : list CapturedImage) (config : ValidationConfig) :
  validateForm RUndefined images config = false
  /\ validateForm RNull images config = false
  /\ useFormValidation RUndefined images config =
     {| isValid := false;
        errorMessage := Some "Report data is not available." |}
  /\ useFormValidation RNull images config =
     {| isValid := false;
        errorMessage := Some "Report data is not available." |}.
Proof. repeat split; reflexivity. Qed.

(** C3. When the number of images is strictly below [config.minImages],
    the form is invalid whatever the report holds, and for a report that is
    there the message is "Please capture at least N photos to submit." with
    [N] the configured minimum: its decimal digits for an integer below
    2^53, "Infinity" for an infinite minimum. The bound is strict: with as
    many images as the minimum, or more, that message is not given. *)
Theorem too_few_images_rejected (CapturedImage : Type)
    (images : list CapturedImage) (config : ValidationConfig) :
  (length_lt (length images) (minImages config) = true ->
   (forall report, validateForm report images config = false)
   /\ (forall r,
         useFormValidation (RObj r) images config =
         {| isValid := false;
            errorMessage :=
              Some ("Please capture at least "
                    ++ num_to_string (minImages config)
                    ++ " photos to submit.") |}))
  /\ (forall n,
        minImages config = Int n -> (n < 2 ^ 53)%Z ->
        (Z.of_nat (length images) < n)%Z ->
        (forall report, validateForm report images config = false)
        /\ (forall r,
              useFormValidation (RObj r) images config =
              {| isValid := false;
                 errorMessage :=
                   Some ("Please capture at least "
                         ++ NilZero.string_of_int (Z.to_int n)
                         ++ " photos to submit.") |}))
  /\ (minImages config = PosInf ->
      (forall report, validateForm report images config = false)
      /\ (forall r,
            useFormValidation (RObj r) images config =
            {| isValid := false;
               errorMessage :=
                 Some "Please capture at least Infinity photos to submit." |}))
  /\ (forall n,
        minImages config = Int n -> (n < 2 ^ 53)%Z ->
        (n <= Z.of_nat (length images))%Z ->
        forall report digits,
          errorMessage (useFormValidation report images config)
          <> Some ("Please capture at least " ++ digits
                   ++ " photos to submit.")).
Proof.
  assert (Hgen : length_lt (length images) (minImages config) = true ->
                 (forall report, validateForm report images config = false)
                 /\ (forall r,
                       useFormValidation (RObj r) images config =
                       {| isValid := false;
                          errorMessage :=
                            Some ("Please capture at least "
                                  ++ num_to_string (minImages config)
                                  ++ " photos to submit.") |})).
  { intros Hlt.
    assert (Hv : forall report, validateForm report images config = false).
    { intros [| |r]; simpl; [reflexivity|reflexivity|]. now rewrite Hlt. }
    split; [exact Hv|].
    intros r. unfold useFormValidation. rewrite Hv. simpl. now rewrite Hlt. }
  split; [exact Hgen|]. split; [|split].
  - intros n Hn Hsafe Hlt.
    assert (Hpos : (Z.abs n < 2 ^ 53)%Z) by (rewrite Z.abs_eq; lia).
    rewrite <- (num_to_string_small n Hpos), <- Hn. apply Hgen.
    rewrite Hn, length_lt_Int by exact Hsafe. now apply Z.ltb_lt.
  - intros Hinf.
    change "Please capture at least Infinity photos to submit."
      with ("Please capture at least " ++ num_to_string PosInf
            ++ " photos to submit.").
    rewrite <- Hinf. apply Hgen. now rewrite Hinf.
  - intros n Hn Hsafe Hge report digits.
    assert (Hlt : length_lt (length images) (minImages config) = false).
    { rewrite Hn, length_lt_Int by exact Hsafe. now apply Z.ltb_ge. }
    unfold useFormValidation. simpl. rewrite Hlt.
    destruct (validateForm report images config); simpl; [discriminate|].
    destruct (absent report); discriminate.
Qed.

Lemma too_few_images_rejected_witness :
  (Z.of_nat (length [tt]) < 2)%Z
  /\ (forall report, validateForm report [tt] holdConfig = false)
  /\ (forall r,
        useFormValidation (RObj r) [tt] holdConfig =
        {| isValid := false;
           errorMessage :=
             Some "Please capture at least 2 photos to submit." |}).
Proof.
  split; [simpl; lia|].
  apply (proj1 (proj2 (too_few_images_rejected unit [tt] holdConfig)) 2%Z).
  - reflexivity.
  - reflexivity.
  - simpl. lia.
Defined.

(** C4, as the code has it. For a report that is there: when a field of
    [config.baseFields] reads as the empty string, [null] or [undefined],
    the form is invalid; so it is when the field is neither a property of
    the record itself nor one that the record inherits. *)
Theorem missing_base_field_rejected (CapturedImage : Type)
    (r : Fields) (images : list CapturedImage) (config : ValidationConfig)
    (field : string) :
  In field (baseFields config) ->
  get r field = VStr "" \/ get r field = VNull \/ get r field = VUndefined
  \/ (own r !! field = None /\ inherited r !! field = None) ->
  validateForm (RObj r) images config = false.
Proof.
  intros Hin Hv. rewrite validateForm_obj.
  rewrite (checkFields_missing r (baseFields config) field Hin).
  - now rewrite andb_false_r.
  - apply fieldPresent_false.
    destruct Hv as [H | [H | [H | [Hown Hinh]]]]; auto.
    right. left. unfold get. now rewrite Hown, Hinh.
Qed.

Lemma missing_base_field_rejected_witness :
  In "status" (baseFields holdConfig)
  /\ (own (plain {[ "holdReason" := VStr "x" ]}) !! "status" = None
      /\ inherited (plain {[ "holdReason" := VStr "x" ]}) !! "status" = None)
  /\ validateForm (RObj (plain {[ "holdReason" := VStr "x" ]})) [tt; tt]
       holdConfig = false.
Proof.
  split; [simpl; auto|]. split; [split; reflexivity|].
  apply (missing_base_field_rejected unit _ [tt; tt] holdConfig "status").
  - simpl. auto.
  - right. right. right. split; reflexivity.
Defined.

(** C4, as the specification has it, fails: the empty object literal has
    no property [constructor] of its own, and a configuration with that
    base field accepts it, because the object inherits one. *)
Lemma inherited_base_field_accepted :
  own (plain ∅) !! "constructor" = None
  /\ validateForm (RObj (plain ∅)) (@nil unit)
       {| minImages := Int 0; baseFields := ["constructor"];
          conditionalFields := None; stringFields := None;
          customValidation := None |} = true.
Proof. split; vm_compute; reflexivity. Qed.

(** C5. A string rule with the negate flag set and condition value [X]
    asks for its target to be a string that is not empty after trimming
    when [record[conditionField] !== X], and asks for nothing when
    [record[conditionField] === X]; without the flag it asks for the target
    when [record[conditionField] === X] and for nothing otherwise. Asking
    for nothing: the form is as valid as it is without the rule. *)
Theorem string_rule_negate_inversion (CapturedImage : Type)
    (r : Fields) (images : list CapturedImage) (config : ValidationConfig)
    (before after : list StringFieldConfig)
    (field : string) (X : Val) (target : string) (negate : option bool) :
  let rule := {| sf_conditionField := field; sf_conditionValue := X;
                 stringField := target; negateCondition := negate |} in
  let withRule :=
    validateForm (RObj r) images
      (withStringFields config (before ++ rule :: after)) in
  let withoutRule :=
    validateForm (RObj r) images (withStringFields config (before ++ after)) in
  (negate = Some true -> strict_neq (get r field) X = true ->
     (withRule = true <->
      withoutRule = true /\ nonEmptyAfterTrim (get r target)))
  /\ (negate = Some true -> strict_eq (get r field) X = true ->
      withRule = withoutRule)
  /\ (negate <> Some true -> strict_eq (get r field) X = true ->
      (withRule = true <->
       withoutRule = true /\ nonEmptyAfterTrim (get r target)))
  /\ (negate <> Some true -> strict_neq (get r field) X = true ->
      withRule = withoutRule).
Proof.
  intros rule withRule withoutRule.
  assert (Hsplit : withRule = withoutRule && stringHolds r rule).
  { unfold withRule, withoutRule. rewrite !validateForm_obj. simpl.
    rewrite !forallb_app. simpl.
    destruct (negb _), (checkFields _ _), (forallb (conditionalHolds r) _),
      (forallb (stringHolds r) before), (forallb (stringHolds r) after),
      (stringHolds r rule), (customHolds _ _); reflexivity. }
  assert (Hflag : negate <> Some true -> truthy negate = false).
  { destruct negate as [[|]|]; simpl; congruence. }
  split; [|split; [|split]].
  - intros -> Hne. rewrite Hsplit, andb_true_iff.
    assert (stringHolds r rule = checkStringField r target) as ->.
    { unfold stringHolds, conditionMet, rule. simpl. now rewrite Hne. }
    now rewrite checkStringField_spec.
  - intros -> Heq. rewrite Hsplit.
    assert (stringHolds r rule = true) as ->.
    { unfold stringHolds, conditionMet, strict_neq, rule. simpl.
      now rewrite Heq. }
    apply andb_true_r.
  - intros Hn Heq. rewrite Hsplit, andb_true_iff.
    assert (stringHolds r rule = checkStringField r target) as ->.
    { unfold stringHolds, conditionMet, rule. simpl.
      rewrite (Hflag Hn). now rewrite Heq. }
    now rewrite checkStringField_spec.
  - intros Hn Hne. rewrite Hsplit.
    assert (stringHolds r rule = true) as ->.
    { unfold stringHolds, conditionMet, rule. simpl.
      rewrite (Hflag Hn). apply negb_true_iff in Hne. now rewrite Hne. }
    apply andb_true_r.
Qed.

Lemma string_rule_negate_inversion_witness :
  let rule := {| sf_conditionField := "status"; sf_conditionValue := VStr "Hold";
                 stringField := "holdReason"; negateCondition := Some true |} in
  let clear : Fields := plain {[ "status" := VStr "Clear" ]} in
  let hold : Fields := plain {[ "status" := VStr "Hold" ]} in
  (Some true = Some true /\ strict_neq (get clear "status") (VStr "Hold") = true)
  /\ (validateForm (RObj clear) [tt; tt] (withStringFields holdConfig [rule])
      = true <->
      validateForm (RObj clear) [tt; tt] (withStringFields holdConfig [])
      = true /\ nonEmptyAfterTrim (get clear "holdReason"))
  /\ strict_eq (get hold "status") (VStr "Hold") = true
  /\ validateForm (RObj hold) [tt; tt] (withStringFields holdConfig [rule])
     = validateForm (RObj hold) [tt; tt] (withStringFields holdConfig []).
Proof.
  intros rule clear hold.
  split; [split; reflexivity|]. split; [|split; [reflexivity|]].
  - apply (proj1 (string_rule_negate_inversion unit clear [tt; tt] holdConfig
                    [] [] "status" (VStr "Hold") "holdReason" (Some true)));
      reflexivity.
  - apply (proj1 (proj2 (string_rule_negate_inversion unit hold [tt; tt]
                           holdConfig [] [] "status" (VStr "Hold")
                           "holdReason" (Some true))));
      reflexivity.
Defined.

(** C6. Conditional rules are conjoined: when the configuration has two
    conditional rules on different condition fields and the record triggers
    both, a record that has every required field of the first and lacks a
    required field of the second is invalid. *)
Theorem conditional_rules_independent (CapturedImage : Type)
    (r : Fields) (images : list CapturedImage) (config : ValidationConfig)
    (rules : list ConditionalFieldConfig)
    (first second : ConditionalFieldConfig) (field : string) :
  conditionalFields config = Some rules ->
  In first rules -> In second rules ->
  conditionField first <> conditionField second ->
  strict_eq (get r (conditionField first)) (conditionValue first) = true ->
  strict_eq (get r (conditionField second)) (conditionValue second) = true ->
  checkFields r (requiredFields first) = true ->
  In field (requiredFields second) ->
  fieldPresent r field = false ->
  validateForm (RObj r) images config = false.
Proof.
  intros Hrules _ Hin _ _ Htrig _ Hfield Hmissing.
  rewrite validateForm_obj, Hrules. simpl.
  assert (Hloop : forallb (conditionalHolds r) rules = false).
  { destruct (forallb _ _) eqn:E; [|reflexivity].
    rewrite forallb_forall in E. specialize (E _ Hin).
    unfold conditionalHolds in E. rewrite Htrig in E.
    rewrite (checkFields_missing _ _ _ Hfield Hmissing) in E. discriminate. }
  rewrite Hloop. now rewrite andb_false_r.
Qed.

Lemma conditional_rules_independent_witness :
  validateForm
    (RObj (plain {[ "officeStatus" := VStr "Opened";
             "metPerson" := VStr "owner";
             "designation" := VStr "manager";
             "documentShownStatus" := VStr "Showed" ]}))
    (@nil unit) officeConfig = false.
Proof.
  apply (conditional_rules_independent unit _ [] officeConfig
           (rulesOf (conditionalFields officeConfig))
           {| conditionField := "officeStatus";
              conditionValue := VStr "Opened";
              requiredFields := ["metPerson"; "designation"] |}
           {| conditionField := "documentShownStatus";
              conditionValue := VStr "Showed";
              requiredFields := ["documentType"] |}
           "documentType").
  - reflexivity.
  - simpl. auto.
  - simpl. auto.
  - simpl. discriminate.
  - reflexivity.
  - reflexivity.
  - reflexivity.
  - simpl. auto.
  - reflexivity.
Defined.

(** C10. A required field bound to the number 0 or to the boolean false is
    present: when every base field and every required field of every
    conditional rule is bound to 0 or false, and the image count, the
    string rules and the custom validation pass, the form is valid. The
    presence test fails only on [null], [undefined] and the empty string. *)
Theorem zero_and_false_are_present (CapturedImage : Type)
    (r : Fields) (images : list CapturedImage) (config : ValidationConfig) :
  length_lt (length images) (minImages config) = false ->
  (forall field, In field (baseFields config) -> zeroOrFalse (get r field)) ->
  (forall rule field,
      In rule (rulesOf (conditionalFields config)) ->
      strict_eq (get r (conditionField rule)) (conditionValue rule) = true ->
      In field (requiredFields rule) -> zeroOrFalse (get r field)) ->
  forallb (stringHolds r) (rulesOf (stringFields config)) = true ->
  customHolds r (customValidation config) = true ->
  validateForm (RObj r) images config = true
  /\ (forall field,
        fieldPresent r field = false <->
        get r field = VNull \/ get r field = VUndefined
        \/ get r field = VStr "").
Proof.
  intros Himg Hbase Hcond Hstr Hcustom.
  split; [|intros field; apply fieldPresent_false].
  assert (Hpresent : forall field, zeroOrFalse (get r field) ->
                                   fieldPresent r field = true).
  { intros field [H|H]; unfold fieldPresent; rewrite H; reflexivity. }
  rewrite validateForm_obj, Himg, Hstr, Hcustom. simpl.
  rewrite !andb_true_r. apply andb_true_iff. split.
  - apply forallb_forall. intros field Hin. apply Hpresent, Hbase, Hin.
  - apply forallb_forall. intros rule Hin. unfold conditionalHolds.
    destruct (strict_eq _ _) eqn:Htrig; [|reflexivity].
    apply forallb_forall. intros field Hf. apply Hpresent.
    apply (Hcond rule field Hin Htrig Hf).
Qed.

Lemma zero_and_false_are_present_witness :
  let r : Fields := plain {[ "visits" := VNum (Int 0);
                             "verified" := VBool false;
                       "attempts" := VNum (Int 0) ]} in
  validateForm (RObj r) [tt] visitConfig = true
  /\ (forall field,
        fieldPresent r field = false <->
        get r field = VNull \/ get r field = VUndefined
        \/ get r field = VStr "").
Proof.
  intros r.
  apply (zero_and_false_are_present unit r [tt] visitConfig).
  - reflexivity.
  - intros field [<-|[<-|[]]]; [left|right]; reflexivity.
  - intros rule field [<-|[]] _ [<-|[]]. left. reflexivity.
  - reflexivity.
  - reflexivity.
Defined.

(** ** Lemmas on the store *)

Lemma next_above (st : Store) (l : loc) :
  is_Some (st !! l) -> (l < next st)%positive.
Proof.
  revert l. unfold next.
  apply (map_fold_weak_ind
           (fun acc (m : Store) =>
              forall l, is_Some (m !! l) -> (l < acc)%positive)).
  - intros l [x Hx]. rewrite lookup_empty in Hx. discriminate.
  - intros i x m acc _ IH l Hl.
    destruct (decide (i = l)) as [->|Hne]; [lia|].
    rewrite lookup_insert_ne in Hl by exact Hne.
    specialize (IH l Hl). lia.
Qed.

Lemma next_fresh (st : Store) : st !! next st = None.
Proof.
  destruct (st !! next st) eqn:E; [|reflexivity].
  assert (H : (next st < next st)%positive) by (apply next_above; eauto).
  lia.
Qed.

(** What [configAt] finds, cell by cell. *)
Lemma configAt_inv st c config :
  configAt st c = Some config ->
  exists o,
    st !! c = Some (ConfigCell o)
    /\ minImages config = o_minImages o
    /\ baseFields config = o_baseFields o
    /\ customValidation config = o_customValidation o
    /\ match o_conditionalFields o with
       | Some a =>
           exists items, st !! a = Some (ConditionalArray items)
                         /\ conditionalFields config = Some items
       | None => conditionalFields config = None
       end
    /\ match o_stringFields o with
       | Some a =>
           exists items, st !! a = Some (StringArray items)
                         /\ stringFields config = Some items
       | None => stringFields config = None
       end.
Proof.
  unfold configAt. intros H.
  destruct (st !! c) as [[o| |]|] eqn:Ec; try discriminate.
  exists o. split; [reflexivity|].
  destruct (o_conditionalFields o) as [a|] eqn:Ea.
  - destruct (st !! a) as [[| items |]|] eqn:Eca; try discriminate.
    destruct (o_stringFields o) as [a'|] eqn:Ea'.
    + destruct (st !! a') as [[| | items']|] eqn:Eca'; try discriminate.
      injection H as <-. simpl. eauto 10.
    + injection H as <-. simpl. eauto 10.
  - destruct (o_stringFields o) as [a'|] eqn:Ea'.
    + destruct (st !! a') as [[| | items']|] eqn:Eca'; try discriminate.
      injection H as <-. simpl. eauto 10.
    + injection H as <-. simpl. eauto 10.
Qed.


(** An evaluation reads the configuration and leaves the store as it is. *)
Lemma validateFormAt_spec {CapturedImage} report (images : list CapturedImage)
    st c config :
  configAt st c = Some config ->
  validateFormAt report images c st
  = Some (validateForm report images config, st).
Proof. intros H. unfold validateFormAt. now rewrite H. Qed.

(** A call on a builder whose configuration is in the store succeeds,
    returns the builder itself,
    and the configuration object then holds the extended configuration. *)
Lemma call_spec st b op config :
  configAt st (ValidationConfigBuilder.config b) = Some config ->
  exists st',
    call b op st = Some (b, st')
    /\ configAt st' (ValidationConfigBuilder.config b) = Some (extend config op).
Proof.
  intros H.
  destruct (configAt_inv _ _ _ H) as (o & Hc & Hmin & Hbase & Hcust & Hcond & Hstr).
  destruct b as [c]. simpl in *.
  destruct config as [cmin cbase ccond cstr ccust]. simpl in *. subst.
  destruct op as [f v req | f v target negate | fn]; simpl.
  - unfold ValidationConfigBuilder.addConditionalFields,
      ValidationConfigBuilder.conditionalFieldsOf, bind, readConfig. simpl.
    rewrite Hc.
    destruct (o_conditionalFields o) as [a|] eqn:Ea.
    + destruct Hcond as (items & Ha & ->).
      unfold ret, pushConditional. rewrite Ha.
      eexists. split; [reflexivity|].
      distinct_locs.
      unfold configAt. rewrite lookup_insert_ne, Hc, Ea, lookup_insert_eq by congruence.
      destruct (o_stringFields o) as [a'|] eqn:Ea'.
      * destruct Hstr as (items' & Ha' & ->). distinct_locs.
        rewrite lookup_insert_ne, Ha' by congruence. reflexivity.
      * subst. reflexivity.
    + subst. pose proof (next_fresh st) as Hfresh.
      unfold alloc, writeConfig, ret, pushConditional.
      set (n := next st) in *. distinct_locs. simpl.
      rewrite lookup_insert_ne, lookup_insert_eq by congruence.
      eexists. split; [reflexivity|].
      unfold configAt.
      rewrite lookup_insert_ne, lookup_insert_eq by congruence. simpl.
      rewrite lookup_insert_eq.
      destruct (o_stringFields o) as [a'|] eqn:Ea'.
      * destruct Hstr as (items' & Ha' & ->). distinct_locs.
        rewrite !lookup_insert_ne, Ha' by congruence. reflexivity.
      * subst. reflexivity.
  - unfold ValidationConfigBuilder.addStringField,
      ValidationConfigBuilder.stringFieldsOf, bind, readConfig. simpl.
    rewrite Hc.
    destruct (o_stringFields o) as [a|] eqn:Ea.
    + destruct Hstr as (items & Ha & ->).
      unfold ret, pushString. rewrite Ha.
      eexists. split; [reflexivity|].
      distinct_locs.
      unfold configAt. rewrite lookup_insert_ne, Hc, Ea, lookup_insert_eq by congruence.
      destruct (o_conditionalFields o) as [a'|] eqn:Ea'.
      * destruct Hcond as (items' & Ha' & ->). distinct_locs.
        rewrite lookup_insert_ne, Ha' by congruence. reflexivity.
      * subst. reflexivity.
    + subst. pose proof (next_fresh st) as Hfresh.
      unfold alloc, writeConfig, ret, pushString.
      set (n := next st) in *. distinct_locs. simpl.
      rewrite lookup_insert_ne, lookup_insert_eq by congruence.
      eexists. split; [reflexivity|].
      unfold configAt.
      rewrite lookup_insert_ne, lookup_insert_eq by congruence. simpl.
      rewrite lookup_insert_eq.
      destruct (o_conditionalFields o) as [a'|] eqn:Ea'.
      * destruct Hcond as (items' & Ha' & ->). distinct_locs.
        rewrite !lookup_insert_ne, Ha' by congruence. reflexivity.
      * subst. reflexivity.
  - unfold ValidationConfigBuilder.addCustomValidation, bind, readConfig,
      writeConfig, ret. simpl. rewrite Hc.
    eexists. split; [reflexivity|].
    unfold configAt. rewrite lookup_insert_eq. simpl.
    destruct (o_conditionalFields o) as [a|] eqn:Ea;
      destruct (o_stringFields o) as [a'|] eqn:Ea'.
    + destruct Hcond as (items & Ha & ->). destruct Hstr as (items' & Ha' & ->).
      distinct_locs. rewrite !lookup_insert_ne, Ha, Ha' by congruence. reflexivity.
    + destruct Hcond as (items & Ha & ->). subst.
      distinct_locs. rewrite !lookup_insert_ne, Ha by congruence. reflexivity.
    + destruct Hstr as (items' & Ha' & ->). subst.
      distinct_locs. rewrite !lookup_insert_ne, Ha' by congruence. reflexivity.
    + subst. reflexivity.
Qed.

(** The constructor makes a builder whose configuration has no rules. *)
Lemma new_spec st minImages baseFields :
  exists b st',
    ValidationConfigBuilder.new minImages baseFields st = Some (b, st')
    /\ configAt st' (ValidationConfigBuilder.config b)
       = Some {| minImages := minImages; baseFields := baseFields;
                 conditionalFields := Some []; stringFields := Some [];
                 customValidation := None |}.
Proof.
  unfold ValidationConfigBuilder.new, bind, alloc, ret.
  do 2 eexists. split; [reflexivity|]. simpl.
  set (n1 := next st).
  set (st1 := <[n1 := ConditionalArray []]> st).
  set (n2 := next st1).
  set (st2 := <[n2 := StringArray []]> st1).
  set (n3 := next st2).
  assert (H1 : st1 !! n1 = Some (ConditionalArray []))
    by apply lookup_insert_eq.
  assert (F2 : st1 !! n2 = None) by apply next_fresh.
  assert (H2 : st2 !! n2 = Some (StringArray []))
    by apply lookup_insert_eq.
  assert (F3 : st2 !! n3 = None) by apply next_fresh.
  assert (n2 <> n1) by (intros E; rewrite E in F2; congruence).
  assert (H21 : st2 !! n1 = Some (ConditionalArray [])).
  { unfold st2. rewrite lookup_insert_ne by congruence. exact H1. }
  assert (n3 <> n1) by (intros E; rewrite E in F3; congruence).
  assert (n3 <> n2) by (intros E; rewrite E in F3; congruence).
  unfold configAt. rewrite lookup_insert_eq. simpl.
  rewrite !lookup_insert_ne by congruence. rewrite H21.
  rewrite H2. reflexivity.
Qed.

Example new_holdBuilder :
  ValidationConfigBuilder.new (Int 2) ["status"] ∅
  = Some (holdBuilder, holdStore).
Proof. vm_compute. reflexivity. Qed.




(** C8. The custom validation is one slot: after
    [addCustomValidation(f)] and then [addCustomValidation(g)] the built
    configuration has [g] as its custom validation, and the store is the one
    that [addCustomValidation(g)] alone leaves. *)
Theorem addCustomValidation_overwrites (st : Store)
    (b : ValidationConfigBuilder.t) (config : ValidationConfig)
    (f g : Fields -> bool) :
  configAt st (ValidationConfigBuilder.config b) = Some config ->
  exists st' built config',
    customTwice b f g st = Some (built, st')
    /\ configAt st' built = Some config'
    /\ customValidation config' = Some g
    /\ config' = extend config (AddCustomValidation g)
    /\ ValidationConfigBuilder.addCustomValidation b g st = Some (b, st').
Proof.
  intros H.
  destruct (call_spec st b (AddCustomValidation g) config H)
    as (st' & Hcall & Hcfg).
  exists st', (ValidationConfigBuilder.config b),
    (extend config (AddCustomValidation g)).
  split; [|repeat split; [exact Hcfg | exact Hcall]].
  simpl in Hcall. revert Hcall.
  destruct (configAt_inv _ _ _ H) as (o & Hc & _).
  unfold customTwice, ValidationConfigBuilder.addCustomValidation,
    ValidationConfigBuilder.build, bind, readConfig, writeConfig, ret.
  rewrite Hc, lookup_insert_eq. simpl. rewrite insert_insert_eq.
  intros E. injection E as <-. reflexivity.
Qed.

Lemma addCustomValidation_overwrites_witness :
  exists st' built config',
    customTwice holdBuilder (fun _ => false) (fun _ => true) holdStore
    = Some (built, st')
    /\ configAt st' built = Some config'
    /\ customValidation config' = Some (fun _ => true).
Proof.
  destruct (addCustomValidation_overwrites holdStore holdBuilder
              {| minImages := Int 2; baseFields := ["status"];
                 conditionalFields := Some []; stringFields := Some [];
                 customValidation := None |}
              (fun _ => false) (fun _ => true))
    as (st' & built & config' & H1 & H2 & H3 & _).
  - reflexivity.
  - exists st', built, config'. auto.
Defined.

(** The evaluator with state does what the one without does, on a
    configuration whose custom validation does not use the state. *)
Lemma lift_validateForm {CapturedImage World} report
    (images : list CapturedImage) (config : ValidationConfig) (w : World) :
  Stateful.validateForm report images (lift config) w
  = (validateForm report images config, w).
Proof.
  destruct report as [| |r]; try reflexivity.
  unfold Stateful.validateForm, validateForm, lift. simpl.
  destruct (length_lt _ _); [reflexivity|].
  destruct (negb (checkFields _ _)); [reflexivity|].
  destruct (ifPresent (conditionalFields config) _); [reflexivity|].
  destruct (ifPresent (stringFields config) _); [reflexivity|].
  destruct (customValidation config) as [fn|]; [|reflexivity].
  destruct (fn r); reflexivity.
Qed.




(** ** Further properties of the evaluator *)

Lemma checkFields_true report fields :
  checkFields report fields = true <->
  forall field, In field fields -> fieldPresent report field = true.
Proof. unfold checkFields. apply forallb_forall. Qed.

Lemma length_lt_mono n n' m :
  (n <= n')%nat -> length_lt n m = false -> length_lt n' m = false.
Proof.
  intros Hle. unfold length_lt. destruct (double m) as [| | | |z]; try tauto.
  rewrite !Z.ltb_ge. lia.
Qed.

(** X1. A report that is there is valid exactly when the images are not
    fewer than the minimum, every base field is present, every conditional
    rule whose condition holds has all its required fields present, the
    target of every string rule whose condition is met is a string that is
    not empty after trimming, and the custom validation, when there is one,
    accepts the record. *)
Theorem validateForm_true_iff (CapturedImage : Type)
    (r : Fields) (images : list CapturedImage) (config : ValidationConfig) :
  validateForm (RObj r) images config = true <->
  length_lt (length images) (minImages config) = false
  /\ (forall field, In field (baseFields config) -> fieldPresent r field = true)
  /\ (forall rule,
        In rule (rulesOf (conditionalFields config)) ->
        strict_eq (get r (conditionField rule)) (conditionValue rule) = true ->
        forall field, In field (requiredFields rule) ->
                      fieldPresent r field = true)
  /\ (forall rule,
        In rule (rulesOf (stringFields config)) ->
        conditionMet r rule = true ->
        nonEmptyAfterTrim (get r (stringField rule)))
  /\ (forall validationFn,
        customValidation config = Some validationFn -> validationFn r = true).
Proof.
  rewrite validateForm_obj, !andb_true_iff, negb_true_iff.
  rewrite checkFields_true, !forallb_forall.
  split.
  - intros ((((H1 & H2) & H3) & H4) & H5). repeat split; auto.
    + intros rule Hin Htrig. specialize (H3 rule Hin).
      unfold conditionalHolds in H3. rewrite Htrig in H3.
      now apply checkFields_true.
    + intros rule Hin Hmet. specialize (H4 rule Hin).
      unfold stringHolds in H4. rewrite Hmet in H4.
      now apply checkStringField_spec.
    + intros fn Hfn. rewrite Hfn in H5. exact H5.
  - intros (H1 & H2 & H3 & H4 & H5). repeat split; auto.
    + intros rule Hin. unfold conditionalHolds.
      destruct (strict_eq _ _) eqn:Htrig; [|reflexivity].
      apply checkFields_true. now apply H3.
    + intros rule Hin. unfold stringHolds.
      destruct (conditionMet r rule) eqn:Hmet; [|reflexivity].
      apply checkStringField_spec. now apply H4.
    + unfold customHolds. destruct (customValidation config) as [fn|];
        [now apply H5 | reflexivity].
Qed.

(** X2. Adding images never makes a valid form invalid. *)
Theorem more_images_stay_valid (A B : Type) (report : Report)
    (images : list A) (images' : list B) (config : ValidationConfig) :
  (length images <= length images')%nat ->
  validateForm report images config = true ->
  validateForm report images' config = true.
Proof.
  intros Hle. destruct report as [| |r]; try discriminate.
  rewrite !validateForm_obj, !andb_true_iff, !negb_true_iff.
  intros ((((H1 & H2) & H3) & H4) & H5). repeat split; auto.
  now apply (length_lt_mono _ _ _ Hle).
Qed.

Lemma more_images_stay_valid_witness :
  (length [tt; tt] <= length [true; false; true])%nat
  /\ validateForm
      (RObj (plain {[ "status" := VStr "Clear" ]}))
      [true; false; true]
       holdConfig = true.
Proof.
  split; [simpl; lia|].
  apply (more_images_stay_valid unit bool _ [tt; tt] _ holdConfig).
  - simpl. lia.
  - reflexivity.
Defined.

Lemma forallb_Permutation {A} (f : A -> bool) (l l' : list A) :
  Permutation l l' -> forallb f l = forallb f l'.
Proof.
  induction 1 as [|x l l' _ IH|x y l|l l' l'' _ IH1 _ IH2]; simpl.
  - reflexivity.
  - now rewrite IH.
  - destruct (f x), (f y); reflexivity.
  - now rewrite IH1.
Qed.

(** X3. The order of the base fields, of the conditional rules and of the
    string rules has no effect on the result. *)
Theorem rule_order_irrelevant (CapturedImage : Type) (report : Report)
    (images : list CapturedImage) (config : ValidationConfig)
    (fields' : list string) (conditionals' : list ConditionalFieldConfig)
    (strings' : list StringFieldConfig) :
  Permutation (baseFields config) fields' ->
  Permutation (rulesOf (conditionalFields config)) conditionals' ->
  Permutation (rulesOf (stringFields config)) strings' ->
  validateForm report images
    {| minImages := minImages config;
       baseFields := fields';
       conditionalFields := Some conditionals';
       stringFields := Some strings';
       customValidation := customValidation config |}
  = validateForm report images config.
Proof.
  intros Hb Hc Hs. destruct report as [| |r]; try reflexivity.
  rewrite !validateForm_obj. simpl. unfold checkFields.
  rewrite (forallb_Permutation _ _ _ Hb), (forallb_Permutation _ _ _ Hc),
    (forallb_Permutation _ _ _ Hs).
  reflexivity.
Qed.

Lemma rule_order_irrelevant_witness :
  validateForm (RObj (plain {[ "officeStatus" := VStr "Opened" ]})) [tt]
    {| minImages := Int 0;
       baseFields := ["officeStatus"];
       conditionalFields :=
         Some [ {| conditionField := "documentShownStatus";
                   conditionValue := VStr "Showed";
                   requiredFields := ["documentType"] |};
                {| conditionField := "officeStatus";
                   conditionValue := VStr "Opened";
                   requiredFields := ["metPerson"; "designation"] |} ];
       stringFields := Some [];
       customValidation := None |}
  = validateForm
      (RObj (plain {[ "officeStatus" := VStr "Opened" ]}))
      [tt] officeConfig.
Proof.
  apply (rule_order_irrelevant unit _ [tt] officeConfig).
  - apply Permutation_refl.
  - apply perm_swap.
  - apply Permutation_refl.
Defined.

(** X4. [useFormValidation] reports the result of [validateForm], and gives
    no message exactly when the form is valid. *)
Theorem message_none_iff_valid (CapturedImage : Type) (report : Report)
    (images : list CapturedImage) (config : ValidationConfig) :
  isValid (useFormValidation report images config)
  = validateForm report images config
  /\ (errorMessage (useFormValidation report images config) = None <->
      validateForm report images config = true).
Proof.
  split; [reflexivity|]. unfold useFormValidation. simpl.
  destruct (validateForm report images config); simpl.
  - tauto.
  - split; [|discriminate].
    destruct (absent report); [discriminate|].
    destruct (length_lt _ _); discriminate.
Qed.

(** X5. The message "Please fill all required fields to submit." is given
    exactly when the report is there, the images are not fewer than the
    minimum, and the form is invalid. *)
Theorem generic_message_iff (CapturedImage : Type) (report : Report)
    (images : list CapturedImage) (config : ValidationConfig) :
  errorMessage (useFormValidation report images config)
  = Some "Please fill all required fields to submit." <->
  absent report = false
  /\ length_lt (length images) (minImages config) = false
  /\ validateForm report images config = false.
Proof.
  unfold useFormValidation. simpl.
  destruct (validateForm report images config); simpl.
  - split; [discriminate|]. intros (_ & _ & H). discriminate.
  - destruct (absent report); simpl.
    + split; [discriminate|]. intros (H & _). discriminate.
    + destruct (length_lt _ _); simpl.
      * split; [discriminate|]. intros (_ & H & _). discriminate.
      * tauto.
Qed.

(** X6. A conditional rule or a string rule added to a configuration only
    restricts it: a form that is valid with the added rule is valid without
    it. *)
Theorem added_rule_only_restricts (CapturedImage : Type) (report : Report)
    (images : list CapturedImage) (config : ValidationConfig)
    (op : BuilderCall) :
  (forall validationFn, op <> AddCustomValidation validationFn) ->
  validateForm report images (extend config op) = true ->
  validateForm report images config = true.
Proof.
  intros Hop. destruct report as [| |r]; try discriminate.
  rewrite !validateForm_obj.
  destruct op as [f v required | f v target negate | fn]; simpl.
  - rewrite forallb_app, !andb_true_iff.
    intros ((((H1 & H2) & (H3 & _)) & H4) & H5). auto.
  - rewrite forallb_app, !andb_true_iff.
    intros ((((H1 & H2) & H3) & (H4 & _)) & H5). auto.
  - now destruct (Hop fn).
Qed.

Lemma added_rule_only_restricts_witness :
  validateForm
    (RObj (plain {[ "status" := VStr "Hold";
                    "holdReason" := VStr "pending docs" ]}))
    [tt; tt]
    (extend holdConfig
       (AddConditionalFields "status" (VStr "Hold") ["holdReason"])) = true
  /\ validateForm
       (RObj (plain {[ "status" := VStr "Hold";
                       "holdReason" := VStr "pending docs" ]}))
       [tt; tt] holdConfig = true.
Proof.
  split; [reflexivity|].
  apply (added_rule_only_restricts unit _ [tt; tt] holdConfig
           (AddConditionalFields "status" (VStr "Hold") ["holdReason"])).
  - discriminate.
  - reflexivity.
Defined.

Lemma conditional_rule_split {CapturedImage} r (images : list CapturedImage)
    config before after rule :
  validateForm (RObj r) images
    (withConditionalFields config (before ++ rule :: after))
  = validateForm (RObj r) images (withConditionalFields config (before ++ after))
    && conditionalHolds r rule.
Proof.
  rewrite !validateForm_obj. simpl. rewrite !forallb_app. simpl.
  destruct (negb _), (checkFields _ _), (forallb (conditionalHolds r) before),
    (forallb (conditionalHolds r) after), (conditionalHolds r rule),
    (forallb (stringHolds r) _), (customHolds _ _); reflexivity.
Qed.

(** X7. What one conditional rule does, wherever it stands among the
    others: when the record has the condition value in the condition field,
    the form is valid exactly when it is valid without the rule and all the
    required fields of the rule are present; otherwise the rule changes
    nothing. *)
Theorem conditional_rule_effect (CapturedImage : Type)
    (r : Fields) (images : list CapturedImage) (config : ValidationConfig)
    (before after : list ConditionalFieldConfig)
    (rule : ConditionalFieldConfig) :
  let withRule :=
    validateForm (RObj r) images
      (withConditionalFields config (before ++ rule :: after)) in
  let withoutRule :=
    validateForm (RObj r) images
      (withConditionalFields config (before ++ after)) in
  (strict_eq (get r (conditionField rule)) (conditionValue rule) = true ->
     (withRule = true <->
      withoutRule = true
      /\ forall field, In field (requiredFields rule) ->
                       fieldPresent r field = true))
  /\ (strict_eq (get r (conditionField rule)) (conditionValue rule) = false ->
      withRule = withoutRule).
Proof.
  intros withRule withoutRule. unfold withRule, withoutRule.
  rewrite conditional_rule_split. unfold conditionalHolds. split.
  - intros ->. now rewrite andb_true_iff, checkFields_true.
  - intros ->. apply andb_true_r.
Qed.

Lemma conditional_rule_effect_witness :
  let rule := {| conditionField := "officeStatus";
                 conditionValue := VStr "Opened";
                 requiredFields := ["metPerson"] |} in
  let r : Fields := plain {[ "officeStatus" := VStr "Closed" ]} in
  strict_eq (get r (conditionField rule)) (conditionValue rule) = false
  /\ validateForm (RObj r) [tt] (withConditionalFields officeConfig [rule])
     = validateForm (RObj r) [tt] (withConditionalFields officeConfig []).
Proof.
  intros rule r. split; [reflexivity|].
  apply (proj2 (conditional_rule_effect unit r [tt] officeConfig [] [] rule)).
  reflexivity.
Defined.

Lemma strict_eq_NaN v : strict_eq v (VNum NaN) = false.
Proof.
  destruct v as [| |b|n|s|o]; try reflexivity.
  simpl. unfold num_eq. simpl double. destruct (double n); reflexivity.
Qed.

Lemma strict_eq_undefined v :
  v <> VUndefined -> strict_eq VUndefined v = false.
Proof. destruct v; simpl; congruence. Qed.

(** X8. A conditional rule never applies when its condition field is
    neither a property of the record itself nor one that the record
    inherits (a misspelt field name, say) and its condition value is not
    [undefined], nor when its condition value is [NaN]: the form is then as
    valid as it is without the rule, whatever the rule requires. *)
Theorem conditional_rule_silent (CapturedImage : Type)
    (r : Fields) (images : list CapturedImage) (config : ValidationConfig)
    (before after : list ConditionalFieldConfig)
    (rule : ConditionalFieldConfig) :
  (own r !! conditionField rule = None
   /\ inherited r !! conditionField rule = None
   /\ conditionValue rule <> VUndefined)
  \/ conditionValue rule = VNum NaN ->
  validateForm (RObj r) images
    (withConditionalFields config (before ++ rule :: after))
  = validateForm (RObj r) images
      (withConditionalFields config (before ++ after)).
Proof.
  intros H. rewrite conditional_rule_split.
  assert (E : strict_eq (get r (conditionField rule)) (conditionValue rule)
              = false).
  { destruct H as [(Hown & Hinh & Hv) | Hnan].
    - unfold get. rewrite Hown, Hinh. now apply strict_eq_undefined.
    - rewrite Hnan. apply strict_eq_NaN. }
  unfold conditionalHolds. rewrite E. apply andb_true_r.
Qed.

Lemma conditional_rule_silent_witness :
  let rule := {| conditionField := "oficeStatus";
                 conditionValue := VStr "Opened";
                 requiredFields := ["metPerson"] |} in
  let r : Fields := plain {[ "officeStatus" := VStr "Opened" ]} in
  (own r !! conditionField rule = None
   /\ inherited r !! conditionField rule = None
   /\ conditionValue rule <> VUndefined)
  /\ validateForm (RObj r) [tt] (withConditionalFields officeConfig [rule])
     = validateForm (RObj r) [tt] (withConditionalFields officeConfig []).
Proof.
  intros rule r.
  assert (H : own r !! conditionField rule = None
              /\ inherited r !! conditionField rule = None
              /\ conditionValue rule <> VUndefined)
    by (split; [reflexivity | split; [reflexivity | discriminate]]).
  split; [exact H|].
  apply (conditional_rule_silent unit r [tt] officeConfig [] [] rule).
  left. exact H.
Defined.

(** X9. The minimum number of images is not checked when the configuration
    is made: with a minimum that is [NaN], negative or zero the images never
    matter (a form with no image can be valid), and with a minimum of
    [Infinity] no form is ever valid. *)
Theorem unchecked_minimum (A B : Type) (report : Report)
    (images : list A) (images' : list B) (config : ValidationConfig) :
  (minImages config = NaN \/ minImages config = NegInf
   \/ (exists z, minImages config = Int z /\ z <= 0) ->
   validateForm report images config = validateForm report images' config)
  /\ (minImages config = PosInf -> validateForm report images config = false).
Proof.
  split.
  - intros H. destruct report as [| |r]; try reflexivity.
    rewrite !validateForm_obj.
    assert (E : forall n, length_lt n (minImages config) = false).
    { intros n. destruct H as [-> | [-> | (z & -> & Hz)]]; auto.
      assert (Hpow : (0 < 2 ^ 53)%Z) by (apply Z.pow_pos_nonneg; lia).
      rewrite length_lt_Int by lia. apply Z.ltb_ge. lia. }
    now rewrite !E.
  - intros H. destruct report as [| |r]; try reflexivity.
    rewrite validateForm_obj, H. reflexivity.
Qed.

Lemma unchecked_minimum_witness :
  (exists z, minImages officeConfig = Int z /\ z <= 0)
  /\ validateForm
      (RObj (plain {[ "officeStatus" := VStr "Closed" ]}))
      (@nil unit)
       officeConfig
     = validateForm
         (RObj (plain {[ "officeStatus" := VStr "Closed" ]}))
         [true; true]
         officeConfig.
Proof.
  assert (H : exists z, minImages officeConfig = Int z /\ z <= 0)
    by (exists 0; split; [reflexivity | lia]).
  split; [exact H|].
  apply (proj1 (unchecked_minimum unit bool _ [] [true; true] officeConfig)).
  right. right. exact H.
Defined.

Lemma trim_nonempty s : trim s <> "" -> s <> "".
Proof. intros H ->. now apply H. Qed.

(** X10. The string check is stronger than the presence check: a field that
    passes [checkStringField] passes the presence test of [checkFields],
    while a string made of white space only, and not empty, passes the
    presence test and fails [checkStringField]. *)
Theorem string_check_stronger_than_presence (r : Fields) (field : string) :
  (checkStringField r field = true -> fieldPresent r field = true)
  /\ (forall s,
        get r field = VStr s -> s <> "" ->
        forallb is_white (list_ascii_of_string s) = true ->
        fieldPresent r field = true /\ checkStringField r field = false).
Proof.
  split.
  - unfold checkStringField, fieldPresent.
    destruct (get r field) as [| |b|n|s|o]; try discriminate.
    destruct s as [|c s]; simpl; [discriminate | reflexivity].
  - intros s Hs Hne Hwhite. unfold checkStringField, fieldPresent.
    rewrite Hs. split.
    + destruct s as [|c s]; [congruence | reflexivity].
    + apply trim_empty in Hwhite. now rewrite Hwhite.
Qed.

Lemma string_check_stronger_than_presence_witness :
  let r : Fields := plain {[ "holdReason" := VStr "  " ]} in
  fieldPresent r "holdReason" = true /\ checkStringField r "holdReason" = false.
Proof.
  intros r.
  apply (proj2 (string_check_stronger_than_presence r "holdReason") "  ").
  - reflexivity.
  - discriminate.
  - reflexivity.
Defined.

(** ** Further properties of the builder *)

Lemma chain_spec ops : forall st b config,
  configAt st (ValidationConfigBuilder.config b) = Some config ->
  exists st',
    chain b ops st = Some (b, st')
    /\ configAt st' (ValidationConfigBuilder.config b)
       = Some (fold_left extend ops config).
Proof.
  induction ops as [|op rest IH]; intros st b config H; simpl.
  - exists st. split; [reflexivity | exact H].
  - destruct (call_spec st b op config H) as (st1 & Hcall & H1).
    destruct (IH st1 b (extend config op) H1) as (st2 & Hchain & H2).
    exists st2. split; [|exact H2].
    unfold bind. rewrite Hcall. exact Hchain.
Qed.

(** X11. A fluent chain never fails and accumulates: after
    [new ValidationConfigBuilder(minImages, baseFields)], any sequence of
    calls and [build()], the built configuration is the initial one (no
    rules, no custom validation) extended by the calls in the order they
    were made, and evaluating it is evaluating that configuration. *)
Theorem buildWith_accumulates (CapturedImage : Type) (st : Store)
    (minImages : Num) (baseFields : list string) (ops : list BuilderCall) :
  exists built st',
    buildWith minImages baseFields ops st = Some (built, st')
    /\ configAt st' built
       = Some (fold_left extend ops (initialConfig minImages baseFields))
    /\ forall report (images : list CapturedImage),
         validateFormAt report images built st'
         = Some (validateForm report images
                   (fold_left extend ops (initialConfig minImages baseFields)),
                 st').
Proof.
  destruct (new_spec st minImages baseFields) as (b & st1 & Hnew & H1).
  destruct (chain_spec ops st1 b _ H1) as (st2 & Hchain & H2).
  exists (ValidationConfigBuilder.config b), st2.
  split; [|split; [exact H2|]].
  - unfold buildWith, bind. rewrite Hnew, Hchain. reflexivity.
  - intros report images. now apply validateFormAt_spec.
Qed.

(** X12. A builder made with no base field, built at once: every report
    that is there is valid as soon as the images are not fewer than the
    minimum. *)
Theorem empty_configuration_accepts (CapturedImage : Type) (st : Store)
    (minImages : Num) (r : Fields) (images : list CapturedImage) :
  length_lt (length images) minImages = false ->
  exists built st',
    buildWith minImages [] [] st = Some (built, st')
    /\ validateFormAt (RObj r) images built st' = Some (true, st').
Proof.
  intros Himg.
  destruct (buildWith_accumulates CapturedImage st minImages [] [])
    as (built & st' & Hb & _ & Hv).
  exists built, st'. split; [exact Hb|].
  rewrite Hv. simpl. now rewrite Himg.
Qed.

Lemma empty_configuration_accepts_witness :
  exists built st',
    buildWith (Int 1) [] [] ∅ = Some (built, st')
    /\ validateFormAt (RObj (plain {[ "status" := VNull ]})) [tt] built st'
       = Some (true, st').
Proof.
  apply (empty_configuration_accepts unit ∅ (Int 1) _ [tt]). reflexivity.
Defined.

Lemma footprint_cells st c config :
  configAt st c = Some config ->
  forall l, In l (footprint st c) -> is_Some (st !! l).
Proof.
  intros H l.
  destruct (configAt_inv _ _ _ H) as (o & Hc & _ & _ & _ & Hcond & Hstr).
  unfold footprint. rewrite Hc. simpl. intros [<- | Hin]; [eauto|].
  apply in_app_or in Hin. destruct Hin as [Hin|Hin].
  - destruct (o_conditionalFields o) as [a|]; [|destruct Hin].
    destruct Hcond as (items & Ha & _). destruct Hin as [<-|[]]. eauto.
  - destruct (o_stringFields o) as [a|]; [|destruct Hin].
    destruct Hstr as (items & Ha & _). destruct Hin as [<-|[]]. eauto.
Qed.

Lemma configAt_frame st st' c config :
  configAt st c = Some config ->
  (forall l, In l (footprint st c) -> st' !! l = st !! l) ->
  configAt st' c = Some config /\ footprint st' c = footprint st c.
Proof.
  intros H Hsame.
  destruct (configAt_inv _ _ _ H) as (o & Hc & _).
  assert (Hc' : st' !! c = Some (ConfigCell o)).
  { rewrite Hsame; [exact Hc|]. unfold footprint. rewrite Hc. now left. }
  split.
  - rewrite <- H. unfold configAt. rewrite Hc, Hc'.
    assert (Ha : forall a, o_conditionalFields o = Some a ->
                           st' !! a = st !! a).
    { intros a Ea. apply Hsame. unfold footprint. rewrite Hc, Ea.
      simpl. auto. }
    assert (Ha' : forall a, o_stringFields o = Some a -> st' !! a = st !! a).
    { intros a Ea. apply Hsame. unfold footprint. rewrite Hc, Ea.
      right. apply in_or_app. right. now left. }
    destruct (o_conditionalFields o) as [a|];
      destruct (o_stringFields o) as [a'|];
      rewrite ?(Ha _ eq_refl), ?(Ha' _ eq_refl); reflexivity.
  - unfold footprint. now rewrite Hc, Hc'.
Qed.

(** A call touches the objects of its own configuration and objects that
    were not in the store; the objects of the configuration afterwards are
    those of before and new ones. *)
Lemma call_frame st b op config b' st' :
  configAt st (ValidationConfigBuilder.config b) = Some config ->
  call b op st = Some (b', st') ->
  (forall l, is_Some (st !! l) ->
             ~ In l (footprint st (ValidationConfigBuilder.config b)) ->
             st' !! l = st !! l)
  /\ (forall l, In l (footprint st' (ValidationConfigBuilder.config b)) ->
                In l (footprint st (ValidationConfigBuilder.config b))
                \/ st !! l = None).
Proof.
  intros H Hcall.
  destruct (configAt_inv _ _ _ H) as (o & Hc & _ & _ & _ & Hcond & Hstr).
  destruct b as [c]. simpl in *.
  pose proof (next_fresh st) as Hfresh.
  assert (Hn : forall l, is_Some (st !! l) -> l <> next st).
  { intros l [x Hx] ->. congruence. }
  assert (Hcn : c <> next st) by (apply Hn; eauto).
  unfold footprint at 1 3. rewrite Hc.
  destruct op as [f v req | f v target negate | fn]; simpl in Hcall.
  - unfold ValidationConfigBuilder.addConditionalFields,
      ValidationConfigBuilder.conditionalFieldsOf, bind, readConfig in Hcall.
    simpl in Hcall. rewrite Hc in Hcall.
    destruct (o_conditionalFields o) as [a|] eqn:Ea.
    + destruct Hcond as (items & Ha & _).
      unfold ret, pushConditional in Hcall. rewrite Ha in Hcall.
      injection Hcall as _ <-.
      assert (a <> c) by (intros ->; congruence).
      split.
      * intros l _ Hnot. apply lookup_insert_ne. intros ->.
        apply Hnot. simpl. auto.
      * intros l. unfold footprint.
        rewrite lookup_insert_ne, Hc, Ea by congruence. auto.
    + unfold alloc, writeConfig, ret, pushConditional in Hcall.
      simpl in Hcall.
      rewrite lookup_insert_ne, lookup_insert_eq in Hcall by congruence.
      injection Hcall as _ <-. split.
      * intros l Hl Hnot. specialize (Hn l Hl).
        rewrite !lookup_insert_ne; [reflexivity| congruence | | congruence].
        intros ->. apply Hnot. now left.
      * intros l. unfold footprint.
        rewrite lookup_insert_ne, lookup_insert_eq by congruence. simpl.
        intros [<- | [<- | Hin]]; auto.
  - unfold ValidationConfigBuilder.addStringField,
      ValidationConfigBuilder.stringFieldsOf, bind, readConfig in Hcall.
    simpl in Hcall. rewrite Hc in Hcall.
    destruct (o_stringFields o) as [a|] eqn:Ea.
    + destruct Hstr as (items & Ha & _).
      unfold ret, pushString in Hcall. rewrite Ha in Hcall.
      injection Hcall as _ <-.
      assert (a <> c) by (intros ->; congruence).
      split.
      * intros l _ Hnot. apply lookup_insert_ne. intros ->.
        apply Hnot. right. apply in_or_app. right. now left.
      * intros l. unfold footprint.
        rewrite lookup_insert_ne, Hc, Ea by congruence. auto.
    + unfold alloc, writeConfig, ret, pushString in Hcall.
      simpl in Hcall.
      rewrite lookup_insert_ne, lookup_insert_eq in Hcall by congruence.
      injection Hcall as _ <-. split.
      * intros l Hl Hnot. specialize (Hn l Hl).
        rewrite !lookup_insert_ne; [reflexivity| congruence | | congruence].
        intros ->. apply Hnot. now left.
      * intros l. unfold footprint.
        rewrite lookup_insert_ne, lookup_insert_eq by congruence. simpl.
        intros [<- | Hin]; auto.
        apply in_app_or in Hin. destruct Hin as [Hin | [<- | []]]; auto.
        left. right. apply in_or_app. now left.
  - unfold ValidationConfigBuilder.addCustomValidation, bind, readConfig,
      writeConfig, ret in Hcall.
    simpl in Hcall. rewrite Hc in Hcall. injection Hcall as _ <-. split.
    + intros l _ Hnot. apply lookup_insert_ne. intros ->.
      apply Hnot. now left.
    + intros l. unfold footprint. rewrite lookup_insert_eq. simpl. auto.
Qed.

Lemma separate_sym st c1 c2 : separate st c1 c2 -> separate st c2 c1.
Proof. intros H l H2 H1. exact (H l H1 H2). Qed.

(** A chain of calls on a builder leaves a configuration that shares no
    object with the builder's as it was, and they still share no object. *)
Lemma chain_frame ops : forall st b c configB config,
  configAt st (ValidationConfigBuilder.config b) = Some configB ->
  configAt st c = Some config ->
  separate st (ValidationConfigBuilder.config b) c ->
  exists st',
    chain b ops st = Some (b, st')
    /\ configAt st' (ValidationConfigBuilder.config b)
       = Some (fold_left extend ops configB)
    /\ configAt st' c = Some config
    /\ separate st' (ValidationConfigBuilder.config b) c.
Proof.
  induction ops as [|op rest IH]; intros st b c configB config HB Hc Hsep.
  - exists st. simpl. auto.
  - destruct (call_spec st b op configB HB) as (st1 & Hcall & HB1).
    destruct (call_frame st b op configB b st1 HB Hcall) as (Hframe & Hfoot).
    assert (Hsame : forall l, In l (footprint st c) -> st1 !! l = st !! l).
    { intros l Hl. apply Hframe; [now apply (footprint_cells st c config)|].
      intros Hb. exact (Hsep l Hb Hl). }
    destruct (configAt_frame st st1 c config Hc Hsame) as (Hc1 & Hfc).
    assert (Hsep1 : separate st1 (ValidationConfigBuilder.config b) c).
    { intros l Hl. rewrite Hfc. destruct (Hfoot l Hl) as [Hold | Hnone].
      - now apply Hsep.
      - intros Hin. destruct (footprint_cells st c config Hc l Hin) as [x Hx].
        congruence. }
    destruct (IH st1 b c (extend configB op) config HB1 Hc1 Hsep1)
      as (st2 & Hchain & HB2 & Hc2 & Hsep2).
    exists st2. simpl. unfold bind. rewrite Hcall. auto.
Qed.

(** A new builder shares no object with a configuration already in the
    store, and leaves it as it was. *)
Lemma new_separate st minImages baseFields c config :
  configAt st c = Some config ->
  exists b st',
    ValidationConfigBuilder.new minImages baseFields st = Some (b, st')
    /\ configAt st' (ValidationConfigBuilder.config b)
       = Some (initialConfig minImages baseFields)
    /\ configAt st' c = Some config
    /\ separate st' (ValidationConfigBuilder.config b) c.
Proof.
  intros Hc.
  destruct (new_spec st minImages baseFields) as (b & st' & Hnew & Hb).
  exists b, st'. split; [exact Hnew|]. split; [exact Hb|].
  revert Hnew Hb. unfold ValidationConfigBuilder.new, bind, alloc, ret.
  set (n1 := next st).
  set (st1 := <[n1 := ConditionalArray []]> st).
  set (n2 := next st1).
  set (st2 := <[n2 := StringArray []]> st1).
  set (n3 := next st2).
  intros Hnew Hb. injection Hnew as <- <-. simpl in *.
  assert (Hold : forall l, is_Some (st !! l) ->
                           l <> n1 /\ l <> n2 /\ l <> n3).
  { intros l Hl.
    assert (l <> n1).
    { intros ->. unfold n1 in Hl. rewrite next_fresh in Hl.
      destruct Hl; discriminate. }
    assert (Hl1 : is_Some (st1 !! l))
      by (unfold st1; now rewrite lookup_insert_ne by congruence).
    assert (l <> n2).
    { intros ->. unfold n2 in Hl1. rewrite next_fresh in Hl1.
      destruct Hl1; discriminate. }
    assert (Hl2 : is_Some (st2 !! l))
      by (unfold st2; now rewrite lookup_insert_ne by congruence).
    assert (l <> n3).
    { intros ->. unfold n3 in Hl2. rewrite next_fresh in Hl2.
      destruct Hl2; discriminate. }
    auto. }
  assert (Hsame : forall l, In l (footprint st c) ->
                            <[n3 := ConfigCell
                                      {| o_minImages := minImages;
                                         o_baseFields := baseFields;
                                         o_conditionalFields := Some n1;
                                         o_stringFields := Some n2;
                                         o_customValidation := None |}]> st2
                            !! l = st !! l).
  { intros l Hl. apply (footprint_cells st c config Hc) in Hl.
    destruct (Hold l Hl) as (? & ? & ?).
    unfold st2, st1. now rewrite !lookup_insert_ne by congruence. }
  destruct (configAt_frame st _ c config Hc Hsame) as (Hc' & Hfc).
  split; [exact Hc'|].
  intros l Hl. rewrite Hfc. intros Hin.
  apply (footprint_cells st c config Hc) in Hin.
  destruct (Hold l Hin) as (? & ? & ?).
  unfold footprint in Hl. rewrite lookup_insert_eq in Hl. simpl in Hl.
  destruct Hl as [<- | [<- | [<- | []]]]; congruence.
Qed.

(** X13. Builders do not interfere: when a new builder is made in a store
    that holds the configuration of another builder, any chain of calls on
    the new builder leaves the other configuration as it was, and any chain
    of calls on the other builder leaves the new configuration as it was. *)
Theorem builders_independent (st : Store) (other : ValidationConfigBuilder.t)
    (config : ValidationConfig) (minImages : Num) (baseFields : list string)
    (ops : list BuilderCall) :
  configAt st (ValidationConfigBuilder.config other) = Some config ->
  exists b st1,
    ValidationConfigBuilder.new minImages baseFields st = Some (b, st1)
    /\ (exists st2,
          chain b ops st1 = Some (b, st2)
          /\ configAt st2 (ValidationConfigBuilder.config b)
             = Some (fold_left extend ops (initialConfig minImages baseFields))
          /\ configAt st2 (ValidationConfigBuilder.config other) = Some config)
    /\ (exists st2,
          chain other ops st1 = Some (other, st2)
          /\ configAt st2 (ValidationConfigBuilder.config other)
             = Some (fold_left extend ops config)
          /\ configAt st2 (ValidationConfigBuilder.config b)
             = Some (initialConfig minImages baseFields)).
Proof.
  intros H.
  destruct (new_separate st minImages baseFields _ config H)
    as (b & st1 & Hnew & Hb & Hc & Hsep).
  exists b, st1. split; [exact Hnew|]. split.
  - destruct (chain_frame ops st1 b _ _ _ Hb Hc Hsep)
      as (st2 & Hchain & Hb2 & Hc2 & _).
    exists st2. auto.
  - destruct (chain_frame ops st1 other _ _ _ Hc Hb (separate_sym _ _ _ Hsep))
      as (st2 & Hchain & Hc2 & Hb2 & _).
    exists st2. auto.
Qed.

Lemma builders_independent_witness :
  exists b st1,
    ValidationConfigBuilder.new (Int 0) [] holdStore = Some (b, st1)
    /\ exists st2,
         chain b [AddCustomValidation (fun _ => false)] st1 = Some (b, st2)
         /\ configAt st2 (ValidationConfigBuilder.config holdBuilder)
            = Some (initialConfig (Int 2) ["status"]).
Proof.
  destruct (builders_independent holdStore holdBuilder
              (initialConfig (Int 2) ["status"]) (Int 0) []
              [AddCustomValidation (fun _ => false)])
    as (b & st1 & Hnew & (st2 & Hchain & _ & Hother) & _).
  - reflexivity.
  - exists b, st1. split; [exact Hnew|]. exists st2. auto.
Defined.

(** ** The environment configuration: properties *)

Lemma digits_numeral d : forall acc,
  digits (NilEmpty.string_of_uint d) acc = numeralValue d acc.
Proof. induction d; intros acc; simpl; auto. Qed.

Lemma numeralValue_of_lu d : forall d',
  numeralValue d (Z.of_N (Unsigned.of_lu d'))
  = Z.of_N (Unsigned.of_lu (Decimal.revapp d d')).
Proof.
  induction d; intros d'; simpl Decimal.revapp; simpl numeralValue;
    [reflexivity | rewrite <- IHd; f_equal; simpl Unsigned.of_lu; lia ..].
Qed.

Lemma numeralValue_of_uint d : numeralValue d 0 = Z.of_N (Pos.of_uint d).
Proof.
  rewrite Unsigned.of_uint_alt. unfold Decimal.rev.
  rewrite <- numeralValue_of_lu. reflexivity.
Qed.

Lemma unsignedInt_numeral d :
  d <> Decimal.Nil ->
  unsignedInt (NilEmpty.string_of_uint d) = Some (Z.of_N (Pos.of_uint d))
  /\ exists c rest,
       NilEmpty.string_of_uint d = String c rest
       /\ is_white c = false /\ c <> "-"%char /\ c <> "+"%char.
Proof.
  intros Hd. split.
  - rewrite <- numeralValue_of_uint, <- digits_numeral.
    destruct d; try congruence; reflexivity.
  - destruct d; try congruence; simpl; do 2 eexists;
      (split; [reflexivity|]); (split; [reflexivity|]); split; discriminate.
Qed.

(** [parseInt] reads the decimal text of an integer as the number that the
    integer denotes. *)
Lemma parseInt_decimal z :
  parseInt (NilZero.string_of_int (Z.to_int z)) = toNumber z
  /\ NilZero.string_of_int (Z.to_int z) <> "".
Proof.
  destruct z as [|p|p].
  - split; [reflexivity | discriminate].
  - unfold Z.to_int, NilZero.string_of_int.
    pose proof (Unsigned.to_uint_nonnil p) as Hd.
    destruct (unsignedInt_numeral _ Hd) as (Hu & c & rest & Hs & Hw & Hm & Hp).
    assert (E : NilZero.string_of_uint (Pos.to_uint p)
                = NilEmpty.string_of_uint (Pos.to_uint p)).
    { unfold NilZero.string_of_uint. destruct (Pos.to_uint p); congruence. }
    rewrite E. split.
    + unfold parseInt. rewrite Hs. simpl trim_start. rewrite Hw.
      assert (Hbody : (let (negative, body) :=
                         match String c rest with
                         | String "-" r => (true, r)
                         | String "+" r => (false, r)
                         | _ => (false, String c rest)
                         end in
                       match unsignedInt body with
                       | Some n =>
                           if negative
                           then if Z.eqb n 0 then NegZero else toNumber (- n)
                           else toNumber n
                       | None => NaN
                       end)
                      = match unsignedInt (String c rest) with
                        | Some n => toNumber n
                        | None => NaN
                        end).
      { destruct c as [[] [] [] [] [] [] [] []]; try reflexivity;
          congruence. }
      rewrite Hbody, <- Hs, Hu, Unsigned.of_to. reflexivity.
    + rewrite Hs. discriminate.
  - unfold Z.to_int, NilZero.string_of_int.
    pose proof (Unsigned.to_uint_nonnil p) as Hd.
    destruct (unsignedInt_numeral _ Hd) as (Hu & _).
    assert (E : NilZero.string_of_uint (Pos.to_uint p)
                = NilEmpty.string_of_uint (Pos.to_uint p)).
    { unfold NilZero.string_of_uint. destruct (Pos.to_uint p); congruence. }
    rewrite E. split; [|discriminate].
    unfold parseInt. simpl trim_start.
    cbv iota beta. rewrite Hu, Unsigned.of_to.
    change (Z.of_N (N.pos p)) with (Z.pos p). simpl Z.eqb. cbv iota.
    reflexivity.
Qed.

Lemma orElse_eqb value fallback other :
  value <> Some other -> fallback <> other ->
  String.eqb (EnvironmentConfig.orElse value fallback) other = false.
Proof.
  intros Hv Hf. apply String.eqb_neq.
  destruct value as [[|c s]|]; simpl; congruence.
Qed.

Lemma orElse_missing value :
  EnvironmentConfig.orElse value "" = "" <-> value = None \/ value = Some "".
Proof.
  destruct value as [[|c s]|]; simpl; split; auto.
  - discriminate.
  - intros [H|H]; discriminate.
Qed.

(** X14. What the constructor does with the key of the API. With a key
    that is not empty it returns and warns of nothing. With no key, or an
    empty one, it warns "Missing required environment variables: API_KEY";
    it then throws an error with that message when NODE_ENV is
    'production', and returns otherwise. *)
Theorem constructor_outcome (Config : EnvironmentConfig.Env) :
  let missing :=
    Config !! "API_KEY" = None \/ Config !! "API_KEY" = Some "" in
  let env :=
    {| EnvironmentConfig.config := EnvironmentConfig.loadConfig Config |} in
  (~ missing -> EnvironmentConfig.new Config = ([], Returned env))
  /\ (missing -> Config !! "NODE_ENV" <> Some "production" ->
      EnvironmentConfig.new Config = ([missingApiKey], Returned env))
  /\ (missing -> Config !! "NODE_ENV" = Some "production" ->
      EnvironmentConfig.new Config = ([missingApiKey], Thrown missingApiKey)).
Proof.
  intros missing env. unfold missing, env.
  unfold EnvironmentConfig.new, EnvironmentConfig.validateConfig. simpl.
  repeat split.
  - intros Hkey. rewrite <- orElse_missing in Hkey.
    apply String.eqb_neq in Hkey. now rewrite Hkey.
  - intros Hkey Henv. apply orElse_missing in Hkey. rewrite Hkey. simpl.
    rewrite orElse_eqb by (auto; discriminate). reflexivity.
  - intros Hkey Henv. apply orElse_missing in Hkey. rewrite Hkey, Henv.
    reflexivity.
Qed.

Lemma constructor_outcome_witness :
  EnvironmentConfig.new {[ "NODE_ENV" := "production" ]}
  = ([missingApiKey], Thrown missingApiKey).
Proof.
  apply (proj2 (proj2 (constructor_outcome {[ "NODE_ENV" := "production" ]}))).
  - left. reflexivity.
  - reflexivity.
Defined.

(** X15. An environment that was constructed and is in production has its
    key: [getApiKey] returns the key that the configuration binds, which is
    not empty, and the constructor gave no warning. *)
Theorem production_has_api_key (Config : EnvironmentConfig.Env)
    (warnings : list string) (env : EnvironmentConfig.t) :
  EnvironmentConfig.new Config = (warnings, Returned env) ->
  EnvironmentConfig.isProduction env = true ->
  exists key,
    Config !! "API_KEY" = Some key /\ key <> ""
    /\ EnvironmentConfig.getApiKey env = Returned key
    /\ warnings = [].
Proof.
  unfold EnvironmentConfig.new, EnvironmentConfig.validateConfig,
    EnvironmentConfig.isProduction, EnvironmentConfig.getApiKey.
  simpl. intros Hnew Hprod.
  destruct (Config !! "API_KEY") as [[|c key]|] eqn:Hkey; simpl in Hnew.
  - destruct (String.eqb _ "production") eqn:E.
    + discriminate.
    + injection Hnew as _ <-. simpl in Hprod. congruence.
  - injection Hnew as <- <-. simpl. rewrite Hkey. simpl.
    exists (String c key). repeat split. discriminate.
  - destruct (String.eqb _ "production") eqn:E.
    + discriminate.
    + injection Hnew as _ <-. simpl in Hprod. congruence.
Qed.

Lemma production_has_api_key_witness :
  exists key,
    ({[ "NODE_ENV" := "production"; "API_KEY" := "k-123" ]}
       : EnvironmentConfig.Env) !! "API_KEY" = Some key
    /\ key <> "".
Proof.
  destruct (production_has_api_key
              {[ "NODE_ENV" := "production"; "API_KEY" := "k-123" ]} []
              {| EnvironmentConfig.config :=
                   EnvironmentConfig.loadConfig
                     {[ "NODE_ENV" := "production"; "API_KEY" := "k-123" ]} |})
    as (key & H1 & H2 & _).
  - reflexivity.
  - reflexivity.
  - exists key. auto.
Defined.

(** X16. Outside production a missing key is only warned of: the
    constructor returns an environment, and [getApiKey] on it throws
    "API_KEY environment variable is not set.". In general [getApiKey]
    throws exactly when the key of the configuration is empty. *)
Theorem missing_key_throws_late (Config : EnvironmentConfig.Env) :
  (Config !! "API_KEY" = None \/ Config !! "API_KEY" = Some "" ->
   Config !! "NODE_ENV" <> Some "production" ->
   exists env,
     EnvironmentConfig.new Config = ([missingApiKey], Returned env)
     /\ EnvironmentConfig.getApiKey env
        = Thrown "API_KEY environment variable is not set.")
  /\ (forall env,
        EnvironmentConfig.getApiKey env
        = Thrown "API_KEY environment variable is not set." <->
        EnvironmentConfig.API_KEY (EnvironmentConfig.get env) = "").
Proof.
  split.
  - intros Hkey Henv.
    destruct (constructor_outcome Config) as (_ & H & _).
    eexists. split; [apply (H Hkey Henv)|].
    unfold EnvironmentConfig.getApiKey. simpl.
    apply orElse_missing in Hkey. now rewrite Hkey.
  - intros env. unfold EnvironmentConfig.getApiKey, EnvironmentConfig.get.
    simpl. destruct (EnvironmentConfig.API_KEY _) as [|c s]; simpl.
    + tauto.
    + split; discriminate.
Qed.

Lemma missing_key_throws_late_witness :
  exists env,
    EnvironmentConfig.new {[ "NODE_ENV" := "staging" ]}
    = ([missingApiKey], Returned env)
    /\ EnvironmentConfig.getApiKey env
       = Thrown "API_KEY environment variable is not set.".
Proof.
  apply (proj1 (missing_key_throws_late {[ "NODE_ENV" := "staging" ]})).
  - left. reflexivity.
  - discriminate.
Defined.

Lemma orElse_eqb_true value fallback other :
  other <> "" ->
  (String.eqb (EnvironmentConfig.orElse value fallback) other = true <->
   value = Some other
   \/ (fallback = other /\ (value = None \/ value = Some ""))).
Proof.
  intros Hne. rewrite String.eqb_eq.
  destruct value as [[|c s]|]; simpl; split.
  - intros ->. right. auto.
  - intros [H | [H _]]; [congruence | exact H].
  - intros <-. left. reflexivity.
  - intros [H | [_ [H|H]]]; congruence.
  - intros ->. right. auto.
  - intros [H | [H _]]; [congruence | exact H].
Qed.

(** X17. The mode of the environment that is loaded from a configuration:
    production exactly when NODE_ENV is 'production', staging exactly when
    it is 'staging', development exactly when it is 'development', unset or
    empty; and no two of the three at once. *)
Theorem environment_modes (Config : EnvironmentConfig.Env) :
  let env :=
    {| EnvironmentConfig.config := EnvironmentConfig.loadConfig Config |} in
  (EnvironmentConfig.isProduction env = true <->
   Config !! "NODE_ENV" = Some "production")
  /\ (EnvironmentConfig.isStaging env = true <->
      Config !! "NODE_ENV" = Some "staging")
  /\ (EnvironmentConfig.isDevelopment env = true <->
      Config !! "NODE_ENV" = Some "development"
      \/ Config !! "NODE_ENV" = None \/ Config !! "NODE_ENV" = Some "")
  /\ EnvironmentConfig.isProduction env && EnvironmentConfig.isStaging env
     = false
  /\ EnvironmentConfig.isProduction env && EnvironmentConfig.isDevelopment env
     = false
  /\ EnvironmentConfig.isStaging env && EnvironmentConfig.isDevelopment env
     = false.
Proof.
  intros env. unfold env, EnvironmentConfig.isProduction,
    EnvironmentConfig.isStaging, EnvironmentConfig.isDevelopment. simpl.
  rewrite !orElse_eqb_true by discriminate.
  assert (Hex : forall a b : string,
             a <> b ->
             String.eqb (EnvironmentConfig.orElse (Config !! "NODE_ENV")
                           "development") a
             && String.eqb (EnvironmentConfig.orElse (Config !! "NODE_ENV")
                              "development") b = false).
  { intros a b Hab. destruct (String.eqb _ a) eqn:Ea; [|reflexivity].
    apply String.eqb_eq in Ea. rewrite Ea. simpl.
    now apply String.eqb_neq. }
  repeat split; try (apply Hex; discriminate).
  - intros [H | [H _]]; [exact H | discriminate].
  - auto.
  - intros [H | [H _]]; [exact H | discriminate].
  - auto.
  - intros [H | [_ H]]; auto.
  - intros [H | H]; auto.
Qed.

(** X18. A feature of the environment that is loaded from a configuration
    is enabled exactly when its name is bound to the string 'true'. *)
Theorem feature_enabled_iff (Config : EnvironmentConfig.Env)
    (feature : EnvironmentConfig.Feature) :
  EnvironmentConfig.isFeatureEnabled
    {| EnvironmentConfig.config := EnvironmentConfig.loadConfig Config |}
    feature = true <->
  Config !! EnvironmentConfig.featureName feature = Some "true".
Proof.
  unfold EnvironmentConfig.isFeatureEnabled.
  destruct feature; simpl; unfold EnvironmentConfig.isTrue;
    (destruct (Config !! _) as [s|];
     [rewrite String.eqb_eq; split; congruence | split; discriminate]).
Qed.

(** X19. The timeout of the API: 30000 when API_TIMEOUT is unset or empty;
    when it is the decimal text of an integer [z], the number that [z]
    denotes, which is [z] itself below 2^53 in absolute value and the
    nearest double beyond; and [NaN], with no error, when it starts with a
    character that is neither white space, a sign nor a digit. *)
Theorem api_timeout_loaded (Config : EnvironmentConfig.Env) :
  let timeout :=
    EnvironmentConfig.API_TIMEOUT (EnvironmentConfig.loadConfig Config) in
  (Config !! "API_TIMEOUT" = None \/ Config !! "API_TIMEOUT" = Some "" ->
   timeout = Int 30000)
  /\ (forall z,
        Config !! "API_TIMEOUT" = Some (NilZero.string_of_int (Z.to_int z)) ->
        timeout = toNumber z
        /\ ((Z.abs z < 2 ^ 53)%Z -> timeout = Int z))
  /\ (forall c rest,
        Config !! "API_TIMEOUT" = Some (String c rest) ->
        is_white c = false -> c <> "-"%char -> c <> "+"%char ->
        digit c = None ->
        timeout = NaN).
Proof.
  intros timeout.
  assert (E : timeout
              = parseInt (EnvironmentConfig.orElse (Config !! "API_TIMEOUT")
                            "30000")) by reflexivity.
  rewrite E. clear E timeout. split; [|split].
  - intros [-> | ->]; reflexivity.
  - intros z ->. destruct (parseInt_decimal z) as (Hp & Hne).
    destruct (NilZero.string_of_int (Z.to_int z)) as [|c s] eqn:E;
      [congruence|].
    simpl EnvironmentConfig.orElse. split; [exact Hp|].
    intros Hsafe. rewrite Hp. now apply toNumber_small.
  - intros c rest -> Hw Hm Hp Hd. simpl. unfold parseInt. simpl.
    rewrite Hw.
    assert (Hbody : (let (negative, body) :=
                       match String c rest with
                       | String "-" r => (true, r)
                       | String "+" r => (false, r)
                       | _ => (false, String c rest)
                       end in
                     match unsignedInt body with
                     | Some n =>
                         if negative
                         then if Z.eqb n 0 then NegZero else toNumber (- n)
                         else toNumber n
                     | None => NaN
                     end)
                    = match unsignedInt (String c rest) with
                      | Some n => toNumber n
                      | None => NaN
                      end).
    { destruct c as [[] [] [] [] [] [] [] []]; try reflexivity; congruence. }
    rewrite Hbody. unfold unsignedInt. now rewrite Hd.
Qed.

Lemma api_timeout_loaded_witness :
  EnvironmentConfig.API_TIMEOUT
    (EnvironmentConfig.loadConfig {[ "API_TIMEOUT" := "5000" ]}) = Int 5000
  /\ EnvironmentConfig.API_TIMEOUT
       (EnvironmentConfig.loadConfig
          {[ "API_TIMEOUT" := "9007199254740993" ]})
     = Int 9007199254740992
  /\ EnvironmentConfig.API_TIMEOUT
       (EnvironmentConfig.loadConfig {[ "API_TIMEOUT" := "soon" ]}) = NaN.
Proof.
  split; [|split].
  - apply (proj1 (proj2 (api_timeout_loaded {[ "API_TIMEOUT" := "5000" ]}))
             5000%Z); reflexivity.
  - transitivity (toNumber 9007199254740993); [|vm_compute; reflexivity].
    apply (proj1 (proj2 (api_timeout_loaded
                           {[ "API_TIMEOUT" := "9007199254740993" ]}))
             9007199254740993%Z).
    reflexivity.
  - apply (proj2 (proj2 (api_timeout_loaded {[ "API_TIMEOUT" := "soon" ]}))
             "s"%char "oon"); try reflexivity; discriminate.
Defined.

Lemma string_rule_split {CapturedImage} r (images : list CapturedImage)
    config before after rule :
  validateForm (RObj r) images
    (withStringFields config (before ++ rule :: after))
  = validateForm (RObj r) images (withStringFields config (before ++ after))
    && stringHolds r rule.
Proof.
  rewrite !validateForm_obj. simpl. rewrite !forallb_app. simpl.
  destruct (negb _), (checkFields _ _), (forallb (conditionalHolds r) _),
    (forallb (stringHolds r) before), (forallb (stringHolds r) after),
    (stringHolds r rule), (customHolds _ _); reflexivity.
Qed.

(** X20. A string rule whose condition field is neither a property of the
    record itself nor one that the record inherits (a misspelt name, say)
    and whose condition value is not [undefined]:
    without the negate flag it changes nothing; with the flag it always
    applies, and the form is valid exactly when it is valid without the
    rule and the target is a string that is not empty after trimming. *)
Theorem string_rule_missing_condition_field (CapturedImage : Type)
    (r : Fields) (images : list CapturedImage) (config : ValidationConfig)
    (before after : list StringFieldConfig) (rule : StringFieldConfig) :
  own r !! sf_conditionField rule = None ->
  inherited r !! sf_conditionField rule = None ->
  sf_conditionValue rule <> VUndefined ->
  let withRule :=
    validateForm (RObj r) images
      (withStringFields config (before ++ rule :: after)) in
  let withoutRule :=
    validateForm (RObj r) images (withStringFields config (before ++ after)) in
  (truthy (negateCondition rule) = false -> withRule = withoutRule)
  /\ (truthy (negateCondition rule) = true ->
      (withRule = true <->
       withoutRule = true /\ nonEmptyAfterTrim (get r (stringField rule)))).
Proof.
  intros Hnone Hinh Hv withRule withoutRule. unfold withRule, withoutRule.
  rewrite string_rule_split.
  assert (E : strict_eq (get r (sf_conditionField rule))
                (sf_conditionValue rule) = false).
  { unfold get. rewrite Hnone, Hinh. now apply strict_eq_undefined. }
  unfold stringHolds, conditionMet, strict_neq. rewrite E. split.
  - intros ->. apply andb_true_r.
  - intros ->. simpl. now rewrite andb_true_iff, checkStringField_spec.
Qed.

Lemma string_rule_missing_condition_field_witness :
  let rule := {| sf_conditionField := "finalStatus";
                 sf_conditionValue := VStr "Hold";
                 stringField := "holdReason";
                 negateCondition := Some true |} in
  let r : Fields := plain {[ "status" := VStr "Clear" ]} in
  validateForm (RObj r) [tt; tt] (withStringFields holdConfig [rule]) = true
  <-> validateForm (RObj r) [tt; tt] (withStringFields holdConfig []) = true
      /\ nonEmptyAfterTrim (get r "holdReason").
Proof.
  intros rule r.
  assert (Hv : sf_conditionValue rule <> VUndefined) by discriminate.
  apply (proj2 (string_rule_missing_condition_field unit r [tt; tt] holdConfig
                  [] [] rule eq_refl eq_refl Hv)).
  reflexivity.
Defined.

Lemma orElse_nonempty value fallback :
  fallback <> "" -> EnvironmentConfig.orElse value fallback <> "".
Proof. intros H. destruct value as [[|c s]|]; simpl; congruence. Qed.

(** X21. In a loaded configuration the settings that have a default are
    never empty (the mode, the version and name of the application, the
    base URL of the API, the bundle and package identifiers), and the base
    URL is the one that the configuration binds whenever that one is not
    empty. *)
Theorem defaults_never_empty (Config : EnvironmentConfig.Env) :
  let config := EnvironmentConfig.loadConfig Config in
  EnvironmentConfig.NODE_ENV config <> ""
  /\ EnvironmentConfig.APP_VERSION config <> ""
  /\ EnvironmentConfig.APP_NAME config <> ""
  /\ EnvironmentConfig.API_BASE_URL config <> ""
  /\ EnvironmentConfig.BUNDLE_ID config <> ""
  /\ EnvironmentConfig.PACKAGE_NAME config <> ""
  /\ (forall url, url <> "" -> Config !! "API_BASE_URL" = Some url ->
                  EnvironmentConfig.getApiBaseUrl
                    {| EnvironmentConfig.config := config |} = url).
Proof.
  intros config. unfold config. simpl.
  repeat split; try (apply orElse_nonempty; discriminate).
  intros url Hne H. unfold EnvironmentConfig.getApiBaseUrl. simpl.
  rewrite H. destruct url; [congruence | reflexivity].
Qed.

Lemma defaults_never_empty_witness :
  ({[ "API_BASE_URL" := "https://api.example.org" ]}
     : EnvironmentConfig.Env) !! "API_BASE_URL"
  = Some "https://api.example.org"
  /\ EnvironmentConfig.getApiBaseUrl
       {| EnvironmentConfig.config :=
            EnvironmentConfig.loadConfig
              {[ "API_BASE_URL" := "https://api.example.org" ]} |}
     = "https://api.example.org".
Proof.
  split; [reflexivity|].
  destruct (defaults_never_empty
              {[ "API_BASE_URL" := "https://api.example.org" ]})
    as (_ & _ & _ & _ & _ & _ & H).
  apply H; [discriminate | reflexivity].
Defined.
